(** * infrastructure.utilities.cli: running external commands

    A shallow embedding of [infrastructure/utilities/cli.py] (Python 2):
    [executeCommand], [runWithRetries] and [runWithOutput], together with
    the pieces of the Python runtime they rely on ([str.strip],
    [str.split], [str.join], the [%] formatting operator and
    [subprocess.check_call] / [subprocess.check_output]). *)

From Stdlib Require Import ZArith List String Ascii Bool Lia DecimalString.
Import ListNotations.
Local Open Scope string_scope.
Local Open Scope Z_scope.

(** ** Python string operations *)

Module PyStr.

(** The characters [str.strip()] removes when called without argument
    (C locale [isspace]): space, tab, line feed, vertical tab, form feed
    and carriage return. *)
Definition isspace (c : ascii) : bool :=
  match nat_of_ascii c with
  | 32%nat | 9%nat | 10%nat | 11%nat | 12%nat | 13%nat => true
  | _ => false
  end.

Fixpoint lstrip (s : string) : string :=
  match s with
  | EmptyString => EmptyString
  | String c s' => if isspace c then lstrip s' else s
  end.

Fixpoint rstrip (s : string) : string :=
  match s with
  | EmptyString => EmptyString
  | String c s' =>
      match rstrip s' with
      | EmptyString => if isspace c then EmptyString else String c EmptyString
      | r => String c r
      end
  end.

(** [s.strip()] *)
Definition strip (s : string) : string := rstrip (lstrip s).

(** [s.split(sep)] for a separator of one character: every occurrence of
    the separator ends a token, so two adjacent separators enclose an
    empty token and [''.split(sep)] is the list holding the empty string. *)
Fixpoint split (sep : ascii) (s : string) : list string :=
  match s with
  | EmptyString => [EmptyString]
  | String c s' =>
      if Ascii.eqb c sep then EmptyString :: split sep s'
      else match split sep s' with
           | [] => [String c EmptyString]
           | t :: ts => String c t :: ts
           end
  end.

(** [sep.join(l)] *)
Definition join (sep : string) (l : list string) : string :=
  String.concat sep l.

(** [c in s] for a character. *)
Fixpoint mem_char (c : ascii) (s : string) : bool :=
  match s with
  | EmptyString => false
  | String d s' => Ascii.eqb c d || mem_char c s'
  end.

(** [sub in s] *)
Fixpoint contains (sub s : string) : bool :=
  String.prefix sub s
  || match s with
     | EmptyString => false
     | String _ s' => contains sub s'
     end.

(** Observations on a string: made of whitespace only; starting with
    whitespace; ending with whitespace. *)
Fixpoint all_space (s : string) : bool :=
  match s with
  | EmptyString => true
  | String c s' => isspace c && all_space s'
  end.

Definition leading_space (s : string) : bool :=
  match s with
  | EmptyString => false
  | String c _ => isspace c
  end.

Fixpoint trailing_space (s : string) : bool :=
  match s with
  | EmptyString => false
  | String c EmptyString => isspace c
  | String _ s' => trailing_space s'
  end.

(** [str(n)] for an integer. *)
Definition str_of_int (n : Z) : string :=
  NilZero.string_of_int (Z.to_int n).

End PyStr.

(** ** Exceptions *)

(** The exception classes that can travel through this module.
    [CommandFailedError] is the class of [infrastructure.utilities.exceptions];
    [OtherException] stands for any further subclass of [Exception], and
    [KeyboardInterrupt] for the classes that derive from [BaseException]
    only. *)
Inductive exn : Type :=
| CalledProcessError (returncode : Z) (cmd : list string)
| CommandFailedError (msg : string)
| TypeError (msg : string)
| ValueError (msg : string)
| OSError (msg : string)
| OtherException (cls msg : string)
| KeyboardInterrupt.

Definition is_CalledProcessError (e : exn) : bool :=
  match e with CalledProcessError _ _ => true | _ => false end.

Definition is_CommandFailedError (e : exn) : bool :=
  match e with CommandFailedError _ => true | _ => false end.

(** [isinstance(e, Exception)] *)
Definition is_Exception (e : exn) : bool :=
  match e with KeyboardInterrupt => false | _ => true end.

(** How a computation ends: with a value, with an exception, or [Stuck]
    when the model cannot say (loop fuel used up, or a formatting case
    outside the modelled part). *)
Inductive result (A : Type) : Type :=
| Ok (a : A)
| Raise (e : exn)
| Stuck.
Arguments Ok {A} a.
Arguments Raise {A} e.
Arguments Stuck {A}.

(** ** The [%] operator on [str]

    [format % args] for the part of the mini-language the module uses and
    its neighbours: the flags, the conversions [%s], [%d], [%i], the
    float conversions and [%%]; a mapping key, a field width, a precision
    or a length modifier is outside the modelled part ([NotModelled]), and
    so are the conversions [%r], [%c], [%o], [%x], [%X], [%u] and the text
    a float conversion writes for a number. The arguments of the source are
    strings and integers. *)

Module PyFormat.

Inductive arg : Type :=
| AStr (s : string)
| AInt (n : Z).

Inductive outcome : Type :=
| Formatted (s : string)
| Raised (e : exn)
| NotModelled.

Definition is_flag (c : ascii) : bool :=
  match c with
  | "#"%char | "0"%char | "-"%char | " "%char | "+"%char => true
  | _ => false
  end.

Definition is_float_conv (c : ascii) : bool :=
  match c with
  | "e"%char | "E"%char | "f"%char | "F"%char | "g"%char | "G"%char => true
  | _ => false
  end.

Definition is_digit (c : ascii) : bool :=
  match c with
  | "0"%char | "1"%char | "2"%char | "3"%char | "4"%char
  | "5"%char | "6"%char | "7"%char | "8"%char | "9"%char => true
  | _ => false
  end.

(** The sign a numeric conversion writes before a non-negative number:
    [+] with the plus flag, else a blank with the space flag. *)
Definition sign_prefix (plus space : bool) (n : Z) : string :=
  if n <? 0 then "" else if plus then "+" else if space then " " else "".

Definition cons_out (pre : string) (o : outcome) : outcome :=
  match o with
  | Formatted s => Formatted (pre ++ s)
  | other => other
  end.

(** One conversion: the conversion character [c] applied to the next
    argument; returns the text and the arguments left. *)
Definition convert (plus space : bool) (c : ascii) (args : list arg)
  : outcome * list arg :=
  match c with
  | "%"%char => (Formatted "%", args)
  | _ =>
    match args with
    | [] => (Raised (TypeError "not enough arguments for format string"), [])
    | a :: rest =>
        match c with
        | "s"%char =>
            match a with
            | AStr s => (Formatted s, rest)
            | AInt n => (Formatted (PyStr.str_of_int n), rest)
            end
        | "d"%char | "i"%char =>
            match a with
            | AStr _ =>
                (Raised (TypeError "%d format: a number is required, not str"),
                 rest)
            | AInt n =>
                (Formatted (sign_prefix plus space n ++ PyStr.str_of_int n),
                 rest)
            end
        | "r"%char | "c"%char | "o"%char | "x"%char | "X"%char | "u"%char =>
            (NotModelled, rest)
        | _ =>
            if is_float_conv c then
              match a with
              | AStr _ =>
                  (Raised (TypeError "float argument required, not str"), rest)
              | AInt _ => (NotModelled, rest)
              end
            else
              (Raised (ValueError "unsupported format character"), rest)
        end
    end
  end.

(** [in_spec = None]: copying literal text. [in_spec = Some (plus, space)]:
    after a [%], reading the flags of a conversion. *)
Fixpoint format_from (in_spec : option (bool * bool)) (fmt : string)
                     (args : list arg) : outcome :=
  match fmt with
  | EmptyString =>
      match in_spec with
      | Some _ => Raised (ValueError "incomplete format")
      | None =>
          match args with
          | [] => Formatted ""
          | _ :: _ =>
              Raised (TypeError
                "not all arguments converted during string formatting")
          end
      end
  | String c fmt' =>
      match in_spec with
      | None =>
          if Ascii.eqb c "%"%char then format_from (Some (false, false)) fmt' args
          else cons_out (String c "") (format_from None fmt' args)
      | Some (plus, space) =>
          if is_flag c then
            format_from (Some (plus || Ascii.eqb c "+"%char,
                               space || Ascii.eqb c " "%char)) fmt' args
          else if is_digit c || Ascii.eqb c "."%char || Ascii.eqb c "*"%char
                  || Ascii.eqb c "("%char || Ascii.eqb c "h"%char
                  || Ascii.eqb c "l"%char || Ascii.eqb c "L"%char
          then NotModelled
          else
            match convert plus space c args with
            | (Formatted s, rest) => cons_out s (format_from None fmt' rest)
            | (other, _) => other
            end
      end
  end.

(** [fmt % args]: [args] is the tuple on the right, or the one value
    there when it is not a tuple. *)
Definition mod_ (fmt : string) (args : list arg) : outcome :=
  format_from None fmt args.

End PyFormat.

(** ** Effects: the process launcher, the trace and the monad *)

Definition environ : Type := list (string * string).

(** A logger object, named; [None] is the absent logger. *)
Definition logger_t : Type := string.

(** The command as the caller gives it: a string or a sequence of
    tokens ([isinstance(command, basestring)] tells them apart). *)
Inductive command_t : Type :=
| CmdStr (s : string)
| CmdList (l : list string).

(** Values handed to the logger. *)
Inductive pyval : Type :=
| VStr (s : string)
| VInt (n : Z)
| VList (l : list string)
| VPair (a b : pyval).
    (* a tuple of two items *)

Definition val_of_command (c : command_t) : pyval :=
  match c with
  | CmdStr s => VStr s
  | CmdList l => VList l
  end.

(** What the module does to the outside, in order. *)
Inductive event : Type :=
| EvPrintEnv (env : environ) (logger : option logger_t)
    (* diagnostics.printEnv(env, logger) *)
| EvDebug (lg : logger_t) (msg : pyval) (args : list pyval)
    (* logger.debug(msg, *args) *)
| EvException (lg : logger_t) (msg : pyval)
    (* logger.exception(msg) *)
| EvSpawn (capture : bool) (argv : list string) (env : environ)
    (* a child process launched by check_output (capture) or check_call *)
| EvSleep (secs : Z).
    (* time.sleep(secs) *)

Definition trace : Type := list event.

(** How one launch ends: the child ran and exited with a status (and
    wrote [stdout]), or the launch itself failed with an exception. *)
Inductive spawn_outcome : Type :=
| Exited (returncode : Z) (stdout : string)
| LaunchFailed (e : exn).

(** What [time.sleep] raises when it refuses its argument: [IOError]
    from the system call, [OverflowError] from the conversion of a number
    that is too large. *)
Inductive sleep_error : Type :=
| SleepIOError (msg : string)
| SleepOverflowError (msg : string).

Definition exn_of_sleep_error (err : sleep_error) : exn :=
  match err with
  | SleepIOError msg => OtherException "IOError" msg
  | SleepOverflowError msg => OtherException "OverflowError" msg
  end.

(** The operating system as the module sees it: the ambient environment
    [os.environ]; the process launch primitive, which runs the child to
    completion and leaves the world changed; and the durations
    [time.sleep] takes. Which ones it refuses (negative ones, ones too
    large for the platform) and with what error is the platform's
    business: [sleep_check secs] is the error raised for [secs], [None]
    when the sleep is done. A sleep of zero seconds is always done. *)
Class OS (World : Type) : Type := {
  os_environ : environ;
  spawn : bool -> list string -> environ -> World -> spawn_outcome * World;
  sleep_check : Z -> option sleep_error;
  sleep_zero : sleep_check 0 = None
}.

(** Computations over a state [S] that may raise and that emit events. *)
Definition M (S A : Type) : Type := S -> result A * S * trace.

Definition ret {S A} (a : A) : M S A := fun s => (Ok a, s, []).

Definition raise {S A} (e : exn) : M S A := fun s => (Raise e, s, []).

Definition stuck {S A} : M S A := fun s => (Stuck, s, []).

Definition bind {S A B} (m : M S A) (f : A -> M S B) : M S B :=
  fun s =>
    match m s with
    | (Ok a, s1, t1) =>
        match f a s1 with
        | (r, s2, t2) => (r, s2, (t1 ++ t2)%list)
        end
    | (Raise e, s1, t1) => (Raise e, s1, t1)
    | (Stuck, s1, t1) => (Stuck, s1, t1)
    end.

Declare Scope py_scope.
Delimit Scope py_scope with py.
Notation "x <- m ;; k" := (bind m (fun x => k))
  (at level 100, m at next level, right associativity) : py_scope.
Notation "m ;; k" := (bind m (fun _ => k))
  (at level 100, right associativity) : py_scope.
Local Open Scope py_scope.

(** [try: body except ...: handler]: the handler receives the exception
    and runs in the state the body left. [handler e = None] when no
    [except] clause matches [e], which then goes on propagating. *)
Definition try_except {S A} (body : M S A) (handler : exn -> option (M S A))
  : M S A :=
  fun s =>
    match body s with
    | (Ok a, s1, t1) => (Ok a, s1, t1)
    | (Raise e, s1, t1) =>
        match handler e with
        | None => (Raise e, s1, t1)
        | Some h =>
            match h s1 with
            | (r, s2, t2) => (r, s2, (t1 ++ t2)%list)
            end
        end
    | (Stuck, s1, t1) => (Stuck, s1, t1)
    end.

Definition emit {S} (ev : event) : M S unit := fun s => (Ok tt, s, [ev]).

(** [if cond: stmt] *)
Definition when {S} (cond : bool) (m : M S unit) : M S unit :=
  if cond then m else ret tt.

(** [if logger: f(logger)] *)
Definition when_logger {S} (logger : option logger_t)
                       (f : logger_t -> M S unit) : M S unit :=
  match logger with
  | Some lg => f lg
  | None => ret tt
  end.

(** The frame of [executeCommand] and of [runWithOutput]: the local
    variable [command], which the body rebinds, and the world. *)
Definition frame (World : Type) : Type := (command_t * World)%type.

Definition get_command {World} : M (frame World) command_t :=
  fun s => (Ok (fst s), s, []).

Definition set_command {World} (c : command_t) : M (frame World) unit :=
  fun s => (Ok tt, (c, snd s), []).

Definition lift {World A} (m : M World A) : M (frame World) A :=
  fun s =>
    match m (snd s) with
    | (r, w, t) => (r, (fst s, w), t)
    end.

(** Calling a function whose parameter [command] starts as [c]. *)
Definition call {World A} (c : command_t) (body : M (frame World) A)
  : M World A :=
  fun w =>
    match body (c, w) with
    | (r, s, t) => (r, snd s, t)
    end.

(** ** subprocess *)

Section Subprocess.
Context {World : Type} `{OS World}.

(** [subprocess.check_call(argv, env=env)] *)
Definition check_call (argv : list string) (env : environ) : M World unit :=
  fun w =>
    match spawn false argv env w with
    | (Exited rc _, w') =>
        if rc =? 0 then (Ok tt, w', [EvSpawn false argv env])
        else (Raise (CalledProcessError rc argv), w', [EvSpawn false argv env])
    | (LaunchFailed e, w') => (Raise e, w', [EvSpawn false argv env])
    end.

(** [subprocess.check_output(argv, env=env)] *)
Definition check_output (argv : list string) (env : environ) : M World string :=
  fun w =>
    match spawn true argv env w with
    | (Exited rc out, w') =>
        if rc =? 0 then (Ok out, w', [EvSpawn true argv env])
        else (Raise (CalledProcessError rc argv), w', [EvSpawn true argv env])
    | (LaunchFailed e, w') => (Raise e, w', [EvSpawn true argv env])
    end.

End Subprocess.

(** ** The collaborators

    The diagnostics module and the logger are seen through the events
    they stand for, and return normally. *)

Section Collaborators.
Context {S : Type}.

(** [diagnostics.printEnv(env, logger)] of [infrastructure.utilities.logger] *)
Definition diagnostics_printEnv (env : environ) (logger : option logger_t)
  : M S unit := emit (EvPrintEnv env logger).

Definition logger_debug (lg : logger_t) (msg : pyval) (args : list pyval)
  : M S unit := emit (EvDebug lg msg args).

Definition logger_exception (lg : logger_t) (msg : pyval) : M S unit :=
  emit (EvException lg msg).

(** [fmt % args] as a statement. *)
Definition format (fmt : string) (args : list PyFormat.arg) : M S string :=
  match PyFormat.mod_ fmt args with
  | PyFormat.Formatted s => ret s
  | PyFormat.Raised e => raise e
  | PyFormat.NotModelled => stuck
  end.

End Collaborators.

Section Sleep.
Context {World : Type} `{OS World}.

(** [time.sleep(secs)]: the sleep, or the error of the platform for a
    duration it refuses. *)
Definition time_sleep (secs : Z) : M World unit :=
  match sleep_check secs with
  | Some err => raise (exn_of_sleep_error err)
  | None => emit (EvSleep secs)
  end.

End Sleep.

(** ** cli.py *)

(** What [Popen] makes of its first argument: a string is the program
    name alone. *)
Definition argv_of (c : command_t) : list string :=
  match c with
  | CmdStr s => [s]
  | CmdList l => l
  end.

Section Cli.
Context {World : Type} `{OS World}.

Import PyFormat.

(** The default [env=os.environ] of [executeCommand] and [runWithOutput]. *)
Definition effective_env (env : option environ) : environ :=
  match env with
  | Some e => e
  | None => os_environ
  end.

(** [if isinstance(command, basestring): command = command.strip().split(" ")] *)
Definition normalize : M (frame World) unit :=
  command <- get_command ;;
  match command with
  | CmdStr s => set_command (CmdList (PyStr.split " " (PyStr.strip s)))
  | CmdList _ => ret tt
  end.

(** The handler of [except CalledProcessError] in [executeCommand] and
    [runWithOutput]; it reads [command] as the body left it. *)
Definition on_CalledProcessError {A} : M (frame World) A :=
  command <- get_command ;;
  errMessage <-
    match command with
    | CmdStr s => format "Failed to execute command: %s" [AStr s]
    | CmdList l =>
        format "Failed to execute command: %s" [AStr (PyStr.join " " l)]
    end ;;
  raise (CommandFailedError errMessage).

Definition executeCommand (command : command_t) (env : option environ)
    (printEnv : bool) (logger : option logger_t) : M World string :=
  let env := effective_env env in
  call command
    (try_except
       (when printEnv (diagnostics_printEnv env logger) ;;
        when_logger logger
          (fun lg => command <- get_command ;;
                     logger_debug lg (val_of_command command) []) ;;
        normalize ;;
        command <- get_command ;;
        out <- lift (check_output (argv_of command) env) ;;
        ret (PyStr.strip out))
       (fun e =>
          if is_CalledProcessError e then Some on_CalledProcessError
          else None)).

Definition runWithOutput (command : command_t) (env : option environ)
    (printEnv : bool) (logger : option logger_t) : M World unit :=
  let env := effective_env env in
  call command
    (try_except
       (when printEnv (diagnostics_printEnv env logger) ;;
        when_logger logger
          (fun lg => command <- get_command ;;
                     logger_debug lg (val_of_command command) []) ;;
        normalize ;;
        command <- get_command ;;
        lift (check_call (argv_of command) env))
       (fun e =>
          if is_CalledProcessError e then Some on_CalledProcessError
          else if is_Exception e then
            Some (when_logger logger
                    (fun lg =>
                       command <- get_command ;;
                       match command with
                       | CmdStr s =>
                           logger_exception lg
                             (VPair (VStr "check_call failed for command=%s")
                                    (VStr s))
                       | CmdList l =>
                           errMessage <-
                             format "check_call failed for command=%s"
                                    [AStr (PyStr.join " " l)] ;;
                           logger_exception lg (VStr errMessage)
                       end) ;;
                  raise e)
          else None)).

(** How the [while] loop of [runWithRetries] is left without an
    exception: by the [return] in its body, or through its condition. *)
Inductive loop_exit : Type :=
| Returned
| Exhausted.

(** [while attempts < retries: ...], at most [fuel] tests of the
    condition. *)
Fixpoint retry_loop (fuel : nat) (command : command_t) (retries delay : Z)
    (printEnv : bool) (logger : option logger_t) (attempts : Z)
  : M World loop_exit :=
  match fuel with
  | O => stuck
  | Datatypes.S fuel' =>
      if attempts <? retries then
        let attempts := attempts + 1 in
        returned <-
          try_except
            (runWithOutput command None printEnv logger ;;
             ret true)
            (fun e =>
               if is_CommandFailedError e then
                 Some (when_logger logger
                         (fun lg =>
                            logger_debug lg
                              (VStr "Attempt %s to '%s' failed, retrying in %s seconds...")
                              [VInt attempts; val_of_command command;
                               VInt delay]) ;;
                       time_sleep delay ;;
                       ret false)
               else None) ;;
        if returned : bool then ret Returned
        else retry_loop fuel' command retries delay printEnv logger attempts
      else ret Exhausted
  end.

(** Lines 98 to 103: what follows the loop. *)
Definition terminal_failure {A} (command : command_t) (retries : Z)
  : M World A :=
  errMessage <-
    match command with
    | CmdStr s => format "% failed after %s attempts" [AStr s; AInt retries]
    | CmdList l =>
        format "% failed after %s attempts"
               [AStr (PyStr.join " " l); AInt retries]
    end ;;
  raise (CommandFailedError errMessage).

Definition runWithRetries (fuel : nat) (command : command_t)
    (retries delay : Z) (printEnv : bool) (logger : option logger_t)
  : M World unit :=
  exit <- retry_loop fuel command retries delay printEnv logger 0 ;;
  match exit with
  | Returned => ret tt
  | Exhausted => terminal_failure command retries
  end.

End Cli.

(** ** Observations on a trace *)

(** The argument vectors handed to the launcher, in order. *)
Fixpoint launches (t : trace) : list (list string) :=
  match t with
  | [] => []
  | EvSpawn _ argv _ :: t' => argv :: launches t'
  | _ :: t' => launches t'
  end.

(** The delays slept, in order. *)
Fixpoint sleeps (t : trace) : list Z :=
  match t with
  | [] => []
  | EvSleep d :: t' => d :: sleeps t'
  | _ :: t' => sleeps t'
  end.

(** The retry notices: the debug messages that carry the notice format
    and its arguments; their number. *)
Definition is_retry_notice (ev : event) : bool :=
  match ev with
  | EvDebug _ (VStr m) (_ :: _) =>
      String.eqb m "Attempt %s to '%s' failed, retrying in %s seconds..."
  | _ => false
  end.

Definition retry_notices (t : trace) : nat :=
  List.length (filter is_retry_notice t).

(** The environments handed to [diagnostics.printEnv], in order. *)
Fixpoint printed_envs (t : trace) : list environ :=
  match t with
  | [] => []
  | EvPrintEnv env _ :: t' => env :: printed_envs t'
  | _ :: t' => printed_envs t'
  end.

(** ** A scripted operating system

    The world is the list of the outcomes of the launches still to come;
    each launch takes the first (an empty script exits with status 0). *)
Definition scripted_spawn (capture : bool) (argv : list string)
    (env : environ) (w : list spawn_outcome)
  : spawn_outcome * list spawn_outcome :=
  match w with
  | [] => (Exited 0 "", [])
  | o :: w' => (o, w')
  end.

(** Its [time.sleep] refuses a negative duration and one of 2^63 seconds
    or more. *)
Definition scripted_sleep_check (secs : Z) : option sleep_error :=
  if secs <? 0 then Some (SleepIOError "[Errno 22] Invalid argument")
  else if 2 ^ 63 <=? secs then
    Some (SleepOverflowError "sleep length is too large")
  else None.

Definition scripted (ambient : environ) : OS (list spawn_outcome) :=
  {| os_environ := ambient;
     spawn := scripted_spawn;
     sleep_check := scripted_sleep_check;
     sleep_zero := eq_refl |}.

(** An ambient environment and a line feed for the examples. *)
Definition example_environ : environ := [("PATH", "/usr/bin:/bin")].

Definition LF : string := String (ascii_of_nat 10) EmptyString.

(** ** Abbreviations used in the statements *)

(** The tokens a command stands for once normalized. *)
Definition tokens (command : command_t) : list string :=
  match command with
  | CmdStr s => PyStr.split " " (PyStr.strip s)
  | CmdList l => l
  end.

(** The events before the launch: the environment printed when asked,
    the command logged when there is a logger. *)
Definition preamble (env : environ) (printEnv : bool)
    (logger : option logger_t) (command : command_t) : trace :=
  ((if printEnv then [EvPrintEnv env logger] else [])
   ++ match logger with
      | Some lg => [EvDebug lg (val_of_command command) []]
      | None => []
      end)%list.

Definition failed_to_execute (command : command_t) : string :=
  "Failed to execute command: " ++ PyStr.join " " (tokens command).

(** The command text the failure message holds. *)
Definition stripped_text (command : command_t) : string :=
  match command with
  | CmdStr s => PyStr.strip s
  | CmdList l => PyStr.join " " l
  end.

(** What [runWithOutput] logs when the launch raises [e]. *)
Definition launch_error_log (logger : option logger_t) (command : command_t)
    (e : exn) : trace :=
  if is_Exception e then
    match logger with
    | Some lg =>
        [EvException lg
           (VStr ("check_call failed for command="
                  ++ PyStr.join " " (tokens command)))]
    | None => []
    end
  else [].

Section RetryTraces.
Context {World : Type} `{OS World}.
Variables (command : command_t) (delay : Z).
Variables (printEnv : bool) (logger : option logger_t).

(** [failing_run n w w']: from [w], [n] launches of the command in a
    row each run the child to a non-zero exit status, and leave [w']. *)
Inductive failing_run : nat -> World -> World -> Prop :=
| failing_nil w : failing_run O w w
| failing_cons n w rc out w1 w2 :
    spawn false (tokens command) os_environ w = (Exited rc out, w1) ->
    rc <> 0 ->
    failing_run n w1 w2 ->
    failing_run (S n) w w2.

(** The events of the attempt counted [attempt] when it fails with a
    non-zero exit status: the run, the retry notice, the delay. *)
Definition failed_attempt (attempt : Z) : trace :=
  (preamble os_environ printEnv logger command
   ++ [EvSpawn false (tokens command) os_environ]
   ++ match logger with
      | Some lg =>
          [EvDebug lg
             (VStr "Attempt %s to '%s' failed, retrying in %s seconds...")
             [VInt attempt; val_of_command command; VInt delay]]
      | None => []
      end
   ++ [EvSleep delay])%list.

(** The events of [n] failed attempts after [attempts] earlier ones. *)
Fixpoint failed_attempts (n : nat) (attempts : Z) : trace :=
  match n with
  | O => []
  | S n' => (failed_attempt (attempts + 1)
             ++ failed_attempts n' (attempts + 1))%list
  end.

(** The events of an attempt that ends in the launch: a zero exit, or a
    launch that raises. *)
Definition last_attempt : trace :=
  (preamble os_environ printEnv logger command
   ++ [EvSpawn false (tokens command) os_environ])%list.

End RetryTraces.

(** ** Further observations and shapes *)

(** The launches with all they were given: the capture flag, the
    argument vector and the environment. *)
Fixpoint spawns (t : trace) : list (bool * list string * environ) :=
  match t with
  | [] => []
  | EvSpawn capture argv env :: t' => (capture, argv, env) :: spawns t'
  | _ :: t' => spawns t'
  end.

(** The attempt numbers the retry notices carry, in order. *)
Fixpoint notice_numbers (t : trace) : list Z :=
  match t with
  | [] => []
  | EvDebug lg (VStr m) (VInt a :: rest) :: t' =>
      if is_retry_notice (EvDebug lg (VStr m) (VInt a :: rest))
      then a :: notice_numbers t'
      else notice_numbers t'
  | _ :: t' => notice_numbers t'
  end.

(** What went to a logger. *)
Definition is_log (ev : event) : bool :=
  match ev with
  | EvDebug _ _ _ | EvException _ _ => true
  | _ => false
  end.

Definition log_events (t : trace) : trace := filter is_log t.

(** A string without any whitespace; the number of times a character
    occurs in a string. *)
Fixpoint no_whitespace (s : string) : bool :=
  match s with
  | EmptyString => true
  | String c s' => negb (PyStr.isspace c) && no_whitespace s'
  end.


(** A token that a command string can carry: not empty and free of
    whitespace. *)
Definition plain_token (t : string) : bool :=
  negb (String.eqb t "") && no_whitespace t.

(** The retry notice of the attempt counted [attempt]. *)
Definition notice (logger : option logger_t) (command : command_t)
    (delay attempt : Z) : trace :=
  match logger with
  | Some lg =>
      [EvDebug lg
         (VStr "Attempt %s to '%s' failed, retrying in %s seconds...")
         [VInt attempt; val_of_command command; VInt delay]]
  | None => []
  end.

Section LoopShape.
Context {World : Type} `{OS World}.
Variables (command : command_t) (retries delay : Z).
Variables (printEnv : bool) (logger : option logger_t).

(** What [runWithOutput] may have logged before it raised a
    [CommandFailedError]: nothing when it raised it itself, the exception
    message when the launcher raised one. *)
Definition caught_log (log : trace) : Prop :=
  log = [] \/ exists m, log = launch_error_log logger command
                                (CommandFailedError m).

(** [loop_shape attempts r t]: the ways the loop entered with the counter
    at [attempts] can end, and the events of each. *)
Inductive loop_shape : Z -> result loop_exit -> trace -> Prop :=
| shape_exhausted attempts :
    retries <= attempts ->
    loop_shape attempts (Ok Exhausted) []
| shape_returned attempts :
    attempts < retries ->
    loop_shape attempts (Ok Returned) (last_attempt command printEnv logger)
| shape_propagated attempts e t :
    attempts < retries ->
    is_CommandFailedError e = false ->
    t = (last_attempt command printEnv logger
         ++ launch_error_log logger command e)%list ->
    loop_shape attempts (Raise e) t
| shape_sleep_refused attempts log err t :
    attempts < retries ->
    sleep_check delay = Some err ->
    caught_log log ->
    t = (last_attempt command printEnv logger ++ log
         ++ notice logger command delay (attempts + 1))%list ->
    loop_shape attempts (Raise (exn_of_sleep_error err)) t
| shape_retried attempts log r t' t :
    attempts < retries ->
    sleep_check delay = None ->
    caught_log log ->
    loop_shape (attempts + 1) r t' ->
    t = (last_attempt command printEnv logger ++ log
         ++ notice logger command delay (attempts + 1)
         ++ [EvSleep delay] ++ t')%list ->
    loop_shape attempts r t.

End LoopShape.

(** * Properties *)

Example strip_ex : PyStr.strip "  echo  hello  " = "echo  hello".
Proof. reflexivity. Qed.
Example split_ex : PyStr.split " " "a  b" = ["a"; ""; "b"].
Proof. reflexivity. Qed.
Example fmt_ex1 :
  PyFormat.mod_ "Failed to execute command: %s" [PyFormat.AStr "ls -la"]
  = PyFormat.Formatted "Failed to execute command: ls -la".
Proof. reflexivity. Qed.
Example fmt_ex2 :
  PyFormat.mod_ "%s after %s and %d%%" [PyFormat.AStr "x"; PyFormat.AInt 3; PyFormat.AInt (-4)]
  = PyFormat.Formatted "x after 3 and -4%".
Proof. reflexivity. Qed.
Example fmt_ex3 :
  PyFormat.mod_ "% failed after %s attempts" [PyFormat.AStr "x"; PyFormat.AInt 3]
  = PyFormat.Raised (TypeError "float argument required, not str").
Proof. reflexivity. Qed.

(** ** Strings *)

Lemma append_empty_r (s : string) : s ++ "" = s.
Proof. induction s as [|c s IH]; simpl; [reflexivity | now rewrite IH]. Qed.

Lemma split_nonempty (sep : ascii) (s : string) : PyStr.split sep s <> [].
Proof.
  destruct s as [|c s]; simpl; [discriminate|].
  destruct (Ascii.eqb c sep); [discriminate|].
  destruct (PyStr.split sep s); discriminate.
Qed.

Lemma concat_cons (sep x : string) (l : list string) :
  l <> [] -> String.concat sep (x :: l) = x ++ sep ++ String.concat sep l.
Proof. destruct l; [congruence | reflexivity]. Qed.

(** Joining the tokens of a split with the separator gives the string
    back. *)
Lemma join_split (sep : ascii) (s : string) :
  PyStr.join (String sep "") (PyStr.split sep s) = s.
Proof.
  unfold PyStr.join.
  induction s as [|c s IH]; simpl; [reflexivity|].
  pose proof (split_nonempty sep s) as Hs.
  destruct (Ascii.eqb_spec c sep) as [->|Hne].
  - rewrite concat_cons by exact Hs. simpl. now rewrite IH.
  - destruct (PyStr.split sep s) as [|t ts] eqn:E; [contradiction|].
    destruct ts as [|u us].
    + simpl in *. now rewrite IH.
    + rewrite concat_cons by discriminate.
      rewrite concat_cons in IH by discriminate.
      subst s. reflexivity.
Qed.

(** No token of a split holds the separator. *)
Lemma split_no_sep (sep : ascii) (s : string) :
  Forall (fun t => PyStr.mem_char sep t = false) (PyStr.split sep s).
Proof.
  induction s as [|c s IH]; simpl.
  - constructor; [reflexivity | constructor].
  - destruct (Ascii.eqb_spec c sep) as [->|Hne].
    + constructor; [reflexivity | exact IH].
    + destruct (PyStr.split sep s) as [|t ts].
      * constructor; [|constructor]. simpl.
        destruct (Ascii.eqb_spec sep c); [congruence | reflexivity].
      * inversion IH as [|? ? Ht Hts]; subst.
        constructor; [|exact Hts]. simpl. rewrite Ht.
        destruct (Ascii.eqb_spec sep c); [congruence | reflexivity].
Qed.

(** ** What [strip] removes and what it leaves *)

Lemma lstrip_decomp (s : string) :
  exists l, PyStr.all_space l = true /\ s = l ++ PyStr.lstrip s.
Proof.
  induction s as [|c s [l [Hl Hs]]].
  - exists "". split; reflexivity.
  - simpl. destruct (PyStr.isspace c) eqn:Hc.
    + exists (String c l). split; simpl; [now rewrite Hc | now rewrite <- Hs].
    + exists "". split; reflexivity.
Qed.

Lemma lstrip_no_leading (s : string) :
  PyStr.leading_space (PyStr.lstrip s) = false.
Proof.
  induction s as [|c s IH]; [reflexivity|].
  simpl. destruct (PyStr.isspace c) eqn:Hc; [exact IH | simpl; exact Hc].
Qed.

Lemma rstrip_decomp (s : string) :
  exists r, PyStr.all_space r = true /\ s = PyStr.rstrip s ++ r.
Proof.
  induction s as [|c s [r [Hr Hs]]].
  - exists "". split; reflexivity.
  - simpl. destruct (PyStr.rstrip s) as [|d u] eqn:E.
    + destruct (PyStr.isspace c) eqn:Hc.
      * exists (String c r). simpl in Hs. subst s.
        split; simpl; [now rewrite Hc | reflexivity].
      * exists r. split; [exact Hr | simpl in *; now subst s].
    + exists r. split; [exact Hr | simpl in *; now rewrite <- Hs].
Qed.

Lemma rstrip_no_trailing (s : string) :
  PyStr.trailing_space (PyStr.rstrip s) = false.
Proof.
  induction s as [|c s IH]; [reflexivity|].
  simpl. destruct (PyStr.rstrip s) as [|d u] eqn:E.
  - destruct (PyStr.isspace c) eqn:Hc; simpl; [reflexivity | exact Hc].
  - exact IH.
Qed.

Lemma rstrip_keeps_head (s : string) :
  PyStr.leading_space s = false ->
  PyStr.leading_space (PyStr.rstrip s) = false.
Proof.
  destruct s as [|c s]; [reflexivity|].
  simpl. intros Hc. destruct (PyStr.rstrip s); [|exact Hc].
  rewrite Hc. exact Hc.
Qed.

(** [strip] takes whitespace, and only whitespace, off both ends, and
    what is left neither starts nor ends with whitespace. *)
Lemma strip_spec (s : string) :
  (exists l r, PyStr.all_space l = true /\ PyStr.all_space r = true
               /\ s = l ++ PyStr.strip s ++ r)
  /\ PyStr.leading_space (PyStr.strip s) = false
  /\ PyStr.trailing_space (PyStr.strip s) = false.
Proof.
  unfold PyStr.strip. split; [|split].
  - destruct (lstrip_decomp s) as [l [Hl Hs]].
    destruct (rstrip_decomp (PyStr.lstrip s)) as [r [Hr Hs']].
    exists l, r. repeat split; try assumption.
    now rewrite <- Hs', <- Hs.
  - apply rstrip_keeps_head, lstrip_no_leading.
  - apply rstrip_no_trailing.
Qed.

(** ** Formatting *)

Lemma format_failed_to_execute {S : Type} (x : string) :
  @format S "Failed to execute command: %s" [PyFormat.AStr x]
  = ret ("Failed to execute command: " ++ x).
Proof. unfold format. cbn. now rewrite append_empty_r. Qed.

Lemma format_check_call_failed {S : Type} (x : string) :
  @format S "check_call failed for command=%s" [PyFormat.AStr x]
  = ret ("check_call failed for command=" ++ x).
Proof. unfold format. cbn. now rewrite append_empty_r. Qed.

(** The format of the terminal message starts with a [%], a blank and
    an [f]: a float conversion with the blank flag, which refuses the
    string it is given. *)
Lemma format_failed_after {S : Type} (x : string) (rest : list PyFormat.arg) :
  @format S "% failed after %s attempts" (PyFormat.AStr x :: rest)
  = raise (TypeError "float argument required, not str").
Proof. reflexivity. Qed.

(** ** One run *)

Section OneRun.
Context {World : Type} `{OS World}.

Ltac run :=
  unfold runWithOutput, executeCommand, call, try_except, bind, when,
    when_logger, normalize, on_CalledProcessError, get_command, set_command,
    lift, check_call, check_output, diagnostics_printEnv, logger_debug,
    logger_exception, emit, ret, raise, preamble, failed_to_execute, tokens,
    argv_of;
  cbn.

(** [runWithOutput] by the outcome of its one launch. *)
Lemma runWithOutput_unfold (command : command_t) (env : option environ)
    (printEnv : bool) (logger : option logger_t) (w : World) :
  runWithOutput command env printEnv logger w =
  let env' := effective_env env in
  let argv := tokens command in
  let pre := (preamble env' printEnv logger command
              ++ [EvSpawn false argv env'])%list in
  match spawn false argv env' w with
  | (Exited rc _, w') =>
      if rc =? 0 then (Ok tt, w', pre)
      else (Raise (CommandFailedError (failed_to_execute command)), w', pre)
  | (LaunchFailed e, w') =>
      if is_CalledProcessError e then
        (Raise (CommandFailedError (failed_to_execute command)), w', pre)
      else if is_Exception e then
        (Raise e, w',
         (pre ++ match logger with
                 | Some lg =>
                     [EvException lg
                        (VStr ("check_call failed for command="
                               ++ PyStr.join " " argv))]
                 | None => []
                 end)%list)
      else (Raise e, w', pre)
  end.
Proof.
  destruct command as [s|l], printEnv, logger as [lg|]; run;
    (destruct (spawn false _ _ w) as [[rc out|e] w']; cbn;
     [ destruct (rc =? 0); cbn; rewrite ?append_empty_r; reflexivity
     | destruct e; cbn; rewrite ?append_empty_r; reflexivity ]).
Qed.

(** [executeCommand] by the outcome of its one launch. *)
Lemma executeCommand_unfold (command : command_t) (env : option environ)
    (printEnv : bool) (logger : option logger_t) (w : World) :
  executeCommand command env printEnv logger w =
  let env' := effective_env env in
  let argv := tokens command in
  let pre := (preamble env' printEnv logger command
              ++ [EvSpawn true argv env'])%list in
  match spawn true argv env' w with
  | (Exited rc out, w') =>
      if rc =? 0 then (Ok (PyStr.strip out), w', pre)
      else (Raise (CommandFailedError (failed_to_execute command)), w', pre)
  | (LaunchFailed e, w') =>
      if is_CalledProcessError e then
        (Raise (CommandFailedError (failed_to_execute command)), w', pre)
      else (Raise e, w', pre)
  end.
Proof.
  destruct command as [s|l], printEnv, logger as [lg|]; run;
    (destruct (spawn true _ _ w) as [[rc out|e] w']; cbn;
     [ destruct (rc =? 0); cbn; rewrite ?append_empty_r; reflexivity
     | destruct e; cbn; rewrite ?append_empty_r; reflexivity ]).
Qed.

End OneRun.

(** ** Projections of a trace *)

Lemma launches_app (t1 t2 : trace) :
  launches (t1 ++ t2)%list = (launches t1 ++ launches t2)%list.
Proof.
  induction t1 as [|ev t1 IH]; [reflexivity|].
  destruct ev; simpl; now rewrite IH.
Qed.

Lemma sleeps_app (t1 t2 : trace) :
  sleeps (t1 ++ t2)%list = (sleeps t1 ++ sleeps t2)%list.
Proof.
  induction t1 as [|ev t1 IH]; [reflexivity|].
  destruct ev; simpl; now rewrite IH.
Qed.

Lemma printed_envs_app (t1 t2 : trace) :
  printed_envs (t1 ++ t2)%list = (printed_envs t1 ++ printed_envs t2)%list.
Proof.
  induction t1 as [|ev t1 IH]; [reflexivity|].
  destruct ev; simpl; now rewrite IH.
Qed.

Lemma launches_preamble env printEnv logger command :
  launches (preamble env printEnv logger command) = [].
Proof. now destruct printEnv, logger. Qed.

Lemma sleeps_preamble env printEnv logger command :
  sleeps (preamble env printEnv logger command) = [].
Proof. now destruct printEnv, logger. Qed.

Lemma printed_envs_preamble env printEnv logger command :
  printed_envs (preamble env printEnv logger command)
  = if printEnv then [env] else [].
Proof. now destruct printEnv, logger. Qed.

(** ** The retry loop *)

Section Retries.
Context {World : Type} `{OS World}.
Variables (command : command_t) (retries delay : Z).
Variables (printEnv : bool) (logger : option logger_t).

Local Abbreviation loop fuel attempts :=
  (retry_loop fuel command retries delay printEnv logger attempts).
Local Abbreviation failing_run := (failing_run command).
Local Abbreviation failed_attempt :=
  (failed_attempt command delay printEnv logger).
Local Abbreviation failed_attempts :=
  (failed_attempts command delay printEnv logger).
Local Abbreviation last_attempt := (last_attempt command printEnv logger).

Lemma retry_loop_exhausted (fuel : nat) (attempts : Z) (w : World) :
  retries <= attempts ->
  loop (S fuel) attempts w = (Ok Exhausted, w, []).
Proof.
  intros Hle. cbn [retry_loop].
  destruct (Z.ltb_spec attempts retries); [lia | reflexivity].
Qed.

Lemma retry_loop_failure (fuel : nat) (attempts rc : Z) (out : string)
    (w w1 : World) :
  attempts < retries ->
  sleep_check delay = None ->
  spawn false (tokens command) os_environ w = (Exited rc out, w1) ->
  rc <> 0 ->
  loop (S fuel) attempts w =
  match loop fuel (attempts + 1) w1 with
  | (r, w', t) => (r, w', (failed_attempt (attempts + 1) ++ t)%list)
  end.
Proof.
  intros Hlt Hdelay Hspawn Hrc. cbn [retry_loop].
  destruct (Z.ltb_spec attempts retries); [|lia].
  unfold bind at 1. unfold try_except. unfold bind at 1.
  rewrite runWithOutput_unfold. cbn zeta. cbn [effective_env].
  rewrite Hspawn.
  destruct (Z.eqb_spec rc 0); [contradiction|].
  cbn [is_CommandFailedError]. unfold time_sleep. rewrite Hdelay.
  unfold failed_attempt.
  destruct logger as [lg|]; cbn;
    destruct (retry_loop fuel command retries delay printEnv _ (attempts + 1) w1)
      as [[r w'] t];
    rewrite <- ?app_assoc; reflexivity.
Qed.

Lemma retry_loop_success (fuel : nat) (attempts : Z) (out : string)
    (w w1 : World) :
  attempts < retries ->
  spawn false (tokens command) os_environ w = (Exited 0 out, w1) ->
  loop (S fuel) attempts w = (Ok Returned, w1, last_attempt).
Proof.
  intros Hlt Hspawn. cbn [retry_loop].
  destruct (Z.ltb_spec attempts retries); [|lia].
  unfold bind at 1. unfold try_except. unfold bind at 1.
  rewrite runWithOutput_unfold. cbn zeta. cbn [effective_env].
  rewrite Hspawn. cbn. unfold last_attempt.
  now rewrite !app_nil_r.
Qed.

(** An attempt that raises anything but [CommandFailedError] ends the
    loop there: the exception leaves with the state and the events of
    that attempt, nothing after them. *)
Lemma retry_loop_other_error (fuel : nat) (attempts : Z) (e : exn)
    (w w1 : World) (t : trace) :
  attempts < retries ->
  runWithOutput command None printEnv logger w = (Raise e, w1, t) ->
  is_CommandFailedError e = false ->
  loop (S fuel) attempts w = (Raise e, w1, t).
Proof.
  intros Hlt Hrun He. cbn [retry_loop].
  destruct (Z.ltb_spec attempts retries); [|lia].
  unfold bind at 1. unfold try_except. unfold bind at 1.
  rewrite Hrun, He. reflexivity.
Qed.

(** [n] failing launches take the loop through [n] iterations. *)
Lemma retry_loop_failing_run (n : nat) :
  forall (fuel : nat) (attempts : Z) (w w1 : World),
    failing_run n w w1 ->
    attempts + Z.of_nat n <= retries ->
    sleep_check delay = None ->
    loop (n + fuel) attempts w =
    match loop fuel (attempts + Z.of_nat n) w1 with
    | (r, w', t) => (r, w', (failed_attempts n attempts ++ t)%list)
    end.
Proof.
  induction n as [|n IH]; intros fuel attempts w w1 Hrun Hle Hdelay.
  - inversion Hrun; subst. change (Z.of_nat 0) with 0. rewrite Z.add_0_r.
    cbn [Nat.add failed_attempts].
    destruct (loop fuel attempts w1) as [[r w'] t]; reflexivity.
  - inversion Hrun as [|n' w' rc out wa wb Hspawn Hrc Hrest]; subst.
    cbn [Nat.add].
    rewrite (retry_loop_failure (n + fuel) attempts rc out w wa)
      by (assumption || lia).
    rewrite (IH fuel (attempts + 1) wa w1) by (assumption || lia).
    replace (attempts + 1 + Z.of_nat n) with (attempts + Z.of_nat (S n))
      by lia.
    destruct (loop fuel (attempts + Z.of_nat (S n)) w1) as [[r w'] t].
    cbn [failed_attempts]. now rewrite app_assoc.
Qed.

Lemma launches_failed_attempts (n : nat) (attempts : Z) :
  launches (failed_attempts n attempts) = repeat (tokens command) n.
Proof.
  revert attempts. induction n as [|n IH]; intros attempts; [reflexivity|].
  cbn [failed_attempts repeat]. unfold failed_attempt.
  rewrite !launches_app, launches_preamble, IH.
  destruct logger; reflexivity.
Qed.

Lemma sleeps_failed_attempts (n : nat) (attempts : Z) :
  sleeps (failed_attempts n attempts) = repeat delay n.
Proof.
  revert attempts. induction n as [|n IH]; intros attempts; [reflexivity|].
  cbn [failed_attempts repeat]. unfold failed_attempt.
  rewrite !sleeps_app, sleeps_preamble, IH.
  destruct logger; reflexivity.
Qed.

Lemma launches_last_attempt : launches last_attempt = [tokens command].
Proof.
  unfold last_attempt. now rewrite launches_app, launches_preamble.
Qed.

Lemma sleeps_last_attempt : sleeps last_attempt = [].
Proof.
  unfold last_attempt. now rewrite sleeps_app, sleeps_preamble.
Qed.

End Retries.

(** ** Claims on one run *)

Section OneRunClaims.
Context {World : Type} `{OS World}.
Variables (env : option environ) (printEnv : bool) (logger : option logger_t).

Ltac by_outcome w :=
  rewrite ?runWithOutput_unfold, ?executeCommand_unfold; cbn zeta;
  destruct (spawn _ _ _ w) as [[rc out|e] w'];
  [ destruct (rc =? 0)
  | destruct (is_CalledProcessError e); [|try destruct (is_Exception e)] ];
  cbn [snd].

Lemma launches_runWithOutput (command : command_t) (w : World) :
  launches (snd (runWithOutput command env printEnv logger w))
  = [tokens command].
Proof.
  by_outcome w; rewrite !launches_app, launches_preamble;
    try destruct logger; reflexivity.
Qed.

Lemma launches_executeCommand (command : command_t) (w : World) :
  launches (snd (executeCommand command env printEnv logger w))
  = [tokens command].
Proof.
  by_outcome w; rewrite !launches_app, launches_preamble; reflexivity.
Qed.

Lemma failed_to_execute_text (command : command_t) :
  failed_to_execute command
  = "Failed to execute command: " ++ stripped_text command.
Proof.
  unfold failed_to_execute. destruct command as [s|l]; cbn [tokens stripped_text].
  - now rewrite (join_split " " (PyStr.strip s)).
  - reflexivity.
Qed.

(** C2, as amended. A command given as a string is stripped and then cut
    at every single blank, both in [executeCommand] and in
    [runWithOutput]: the launcher receives tokens that hold no blank and
    that, joined by one blank each, give the stripped text back, so two
    blanks in a row enclose an empty token; the text "echo  hello  "
    reaches the launcher as the three tokens "echo", "" and "hello". *)
Theorem string_command_cut_at_each_blank (s : string) (w : World) :
  launches (snd (executeCommand (CmdStr s) env printEnv logger w))
  = [PyStr.split " " (PyStr.strip s)]
  /\ launches (snd (runWithOutput (CmdStr s) env printEnv logger w))
     = [PyStr.split " " (PyStr.strip s)]
  /\ PyStr.join " " (PyStr.split " " (PyStr.strip s)) = PyStr.strip s
  /\ Forall (fun t => PyStr.mem_char " " t = false)
            (PyStr.split " " (PyStr.strip s))
  /\ PyStr.split " " (PyStr.strip "echo  hello  ") = ["echo"; ""; "hello"].
Proof.
  repeat split.
  - apply launches_executeCommand.
  - apply launches_runWithOutput.
  - apply (join_split " ").
  - apply split_no_sep.
Qed.

(** C3. When the child exits with a non-zero status, [executeCommand]
    and [runWithOutput] raise [CommandFailedError] with the message
    "Failed to execute command: " followed by the tokens joined by single
    blanks, which for a command given as a string is the stripped text,
    not the literal one: for the command "false " (a blank at the end)
    the message does not contain the command text. *)
Theorem nonzero_exit_message_holds_stripped_text
    (command : command_t) (w w1 w2 : World) (rc1 rc2 : Z) (out1 out2 : string) :
  spawn true (tokens command) (effective_env env) w = (Exited rc1 out1, w1) ->
  rc1 <> 0 ->
  spawn false (tokens command) (effective_env env) w = (Exited rc2 out2, w2) ->
  rc2 <> 0 ->
  fst (fst (executeCommand command env printEnv logger w))
  = Raise (CommandFailedError
             ("Failed to execute command: " ++ stripped_text command))
  /\ fst (fst (runWithOutput command env printEnv logger w))
     = Raise (CommandFailedError
                ("Failed to execute command: " ++ stripped_text command))
  /\ PyStr.contains "false "
       ("Failed to execute command: " ++ stripped_text (CmdStr "false "))
     = false.
Proof.
  intros Hx Hrc1 Hy Hrc2.
  rewrite runWithOutput_unfold, executeCommand_unfold. cbn zeta.
  rewrite Hx, Hy.
  destruct (Z.eqb_spec rc1 0); [contradiction|].
  destruct (Z.eqb_spec rc2 0); [contradiction|].
  cbn [fst]. rewrite failed_to_execute_text. repeat split.
Qed.

(** C5. When the launch in [runWithOutput] fails with an error that is
    not [CalledProcessError], that same error is raised again, not a
    [CommandFailedError] in its place; when there is a logger, the
    message "check_call failed for command=..." is logged as an exception
    right after the launch, and nothing else is. *)
Theorem launch_error_reraised_unchanged
    (command : command_t) (e : exn) (w w' : World) :
  spawn false (tokens command) (effective_env env) w = (LaunchFailed e, w') ->
  is_CalledProcessError e = false ->
  is_Exception e = true ->
  runWithOutput command env printEnv logger w =
  (Raise e, w',
   (preamble (effective_env env) printEnv logger command
    ++ [EvSpawn false (tokens command) (effective_env env)]
    ++ match logger with
       | Some lg =>
           [EvException lg
              (VStr ("check_call failed for command="
                     ++ PyStr.join " " (tokens command)))]
       | None => []
       end)%list).
Proof.
  intros Hspawn Hcpe Hexc.
  rewrite runWithOutput_unfold. cbn zeta.
  rewrite Hspawn, Hcpe, Hexc. now rewrite <- app_assoc.
Qed.

(** C7. When the child exits with status zero, [executeCommand] returns
    the captured output stripped: whitespace, and only whitespace, is
    taken off both ends of the output, and the text returned neither
    starts nor ends with whitespace. *)
Theorem executeCommand_returns_stripped_output
    (command : command_t) (out : string) (w w' : World) :
  spawn true (tokens command) (effective_env env) w = (Exited 0 out, w') ->
  executeCommand command env printEnv logger w =
  (Ok (PyStr.strip out), w',
   (preamble (effective_env env) printEnv logger command
    ++ [EvSpawn true (tokens command) (effective_env env)])%list)
  /\ (exists l r, PyStr.all_space l = true /\ PyStr.all_space r = true
                  /\ out = l ++ PyStr.strip out ++ r)
  /\ PyStr.leading_space (PyStr.strip out) = false
  /\ PyStr.trailing_space (PyStr.strip out) = false.
Proof.
  intros Hspawn. split; [|apply strip_spec].
  rewrite executeCommand_unfold. cbn zeta. now rewrite Hspawn.
Qed.

(** C8. A command given as a sequence of tokens reaches the launcher as
    it is, once, in [executeCommand] and in [runWithOutput]. *)
Theorem token_sequence_launched_as_given (l : list string) (w : World) :
  launches (snd (executeCommand (CmdList l) env printEnv logger w)) = [l]
  /\ launches (snd (runWithOutput (CmdList l) env printEnv logger w)) = [l].
Proof.
  split; [apply launches_executeCommand | apply launches_runWithOutput].
Qed.

(** C9. With [printEnv] true, [executeCommand] and [runWithOutput] each
    call [diagnostics.printEnv] once: with the environment [e] the caller
    gave when [env] is [e], with [os.environ] when [env] is left out;
    with [printEnv] false they do not call it. *)
Theorem printEnv_called_once_with_effective_env
    (command : command_t) (w : World) :
  printed_envs (snd (executeCommand command env printEnv logger w))
  = (if printEnv
     then [match env with Some e => e | None => os_environ end]
     else [])
  /\ printed_envs (snd (runWithOutput command env printEnv logger w))
     = (if printEnv
        then [match env with Some e => e | None => os_environ end]
        else []).
Proof.
  split; by_outcome w; rewrite !printed_envs_app, printed_envs_preamble;
    try destruct logger; cbn; now rewrite ?app_nil_r.
Qed.

End OneRunClaims.

(** ** Claims on [runWithRetries] *)

Section RetryClaims.
Context {World : Type} `{OS World}.
Variables (command : command_t) (retries delay : Z).
Variables (printEnv : bool) (logger : option logger_t).

Local Abbreviation failed n :=
  (failed_attempts command delay printEnv logger n 0).
Local Abbreviation final := (last_attempt command printEnv logger).

Lemma terminal_failure_raises_TypeError {A : Type} (w : World) :
  terminal_failure (A := A) command retries w
  = (Raise (TypeError "float argument required, not str"), w, []).
Proof.
  unfold terminal_failure, bind.
  destruct command; rewrite format_failed_after; reflexivity.
Qed.

Lemma fuel_split (n fuel : nat) :
  (n < fuel)%nat -> fuel = (n + S (fuel - n - 1))%nat.
Proof. lia. Qed.

(** After [retries] failed attempts the loop is left through its
    condition and the terminal path runs. *)
Lemma runWithRetries_exhausted (n fuel : nat) (w w1 : World) :
  failing_run command n w w1 ->
  retries = Z.of_nat n ->
  sleep_check delay = None ->
  (n < fuel)%nat ->
  runWithRetries fuel command retries delay printEnv logger w
  = (Raise (TypeError "float argument required, not str"), w1,
     failed n).
Proof.
  intros Hrun Hn Hdelay Hfuel.
  unfold runWithRetries, bind.
  rewrite (fuel_split n fuel Hfuel).
  rewrite (retry_loop_failing_run command retries delay printEnv logger
             n _ 0 w w1) by (assumption || lia).
  rewrite retry_loop_exhausted by lia.
  rewrite terminal_failure_raises_TypeError.
  now rewrite !app_nil_r.
Qed.

(** A zero exit after [n] failed attempts ends the call there. *)
Lemma runWithRetries_succeeds (n fuel : nat) (out : string) (w w1 w2 : World) :
  failing_run command n w w1 ->
  spawn false (tokens command) os_environ w1 = (Exited 0 out, w2) ->
  Z.of_nat n < retries ->
  sleep_check delay = None ->
  (n < fuel)%nat ->
  runWithRetries fuel command retries delay printEnv logger w
  = (Ok tt, w2, (failed n ++ final)%list).
Proof.
  intros Hrun Hspawn Hn Hdelay Hfuel.
  unfold runWithRetries, bind.
  rewrite (fuel_split n fuel Hfuel).
  rewrite (retry_loop_failing_run command retries delay printEnv logger
             n _ 0 w w1) by (assumption || lia).
  rewrite (retry_loop_success command retries delay printEnv logger
             _ _ out w1 w2) by (assumption || lia).
  cbn. now rewrite !app_nil_r.
Qed.

Lemma runWithOutput_launch_error (e : exn) (w1 w2 : World) :
  spawn false (tokens command) os_environ w1 = (LaunchFailed e, w2) ->
  is_CalledProcessError e = false ->
  runWithOutput command None printEnv logger w1
  = (Raise e, w2, (final ++ launch_error_log logger command e)%list).
Proof.
  intros Hspawn Hcpe. rewrite runWithOutput_unfold. cbn zeta.
  cbn [effective_env]. rewrite Hspawn, Hcpe.
  unfold launch_error_log, last_attempt.
  destruct (is_Exception e); [reflexivity | now rewrite app_nil_r].
Qed.

(** A launch that raises after [n] failed attempts ends the call there. *)
Lemma runWithRetries_launch_error (n fuel : nat) (e : exn) (w w1 w2 : World) :
  failing_run command n w w1 ->
  spawn false (tokens command) os_environ w1 = (LaunchFailed e, w2) ->
  is_CalledProcessError e = false ->
  is_CommandFailedError e = false ->
  Z.of_nat n < retries ->
  sleep_check delay = None ->
  (n < fuel)%nat ->
  runWithRetries fuel command retries delay printEnv logger w
  = (Raise e, w2,
     (failed n
      ++ final ++ launch_error_log logger command e)%list).
Proof.
  intros Hrun Hspawn Hcpe Hcfe Hn Hdelay Hfuel.
  unfold runWithRetries, bind.
  rewrite (fuel_split n fuel Hfuel).
  rewrite (retry_loop_failing_run command retries delay printEnv logger
             n _ 0 w w1) by (assumption || lia).
  rewrite (retry_loop_other_error command retries delay printEnv logger
             _ _ e w1 w2
             (final ++ launch_error_log logger command e)%list)
    by (assumption || lia || now apply runWithOutput_launch_error).
  reflexivity.
Qed.

Lemma launches_launch_error_log (e : exn) :
  launches (launch_error_log logger command e) = [].
Proof. unfold launch_error_log. now destruct (is_Exception e), logger. Qed.

Lemma sleeps_launch_error_log (e : exn) :
  sleeps (launch_error_log logger command e) = [].
Proof. unfold launch_error_log. now destruct (is_Exception e), logger. Qed.

Lemma no_notice_in_launch_error (e : exn) :
  retry_notices (final ++ launch_error_log logger command e)%list = 0%nat.
Proof.
  unfold launch_error_log, last_attempt, preamble.
  destruct (is_Exception e), printEnv, logger, command; reflexivity.
Qed.

End RetryClaims.

Section RetryTheorems.
Context {World : Type} `{OS World}.
Variables (command : command_t) (printEnv : bool) (logger : option logger_t).

(** C1. When each of the three launches exits with a non-zero status,
    [runWithRetries] with [retries = 3] and [delay = 0] launches the
    command three times, sleeps after each failure and does not return
    normally; the exception it ends with is the [TypeError] of the
    formatting of the terminal message, not a [CommandFailedError]. *)
Theorem three_failures_end_in_TypeError (fuel : nat) (w w1 : World) :
  failing_run command 3 w w1 ->
  (3 < fuel)%nat ->
  exists t,
    runWithRetries fuel command 3 0 printEnv logger w
    = (Raise (TypeError "float argument required, not str"), w1, t)
    /\ launches t = [tokens command; tokens command; tokens command]
    /\ sleeps t = [0; 0; 0]
    /\ is_CommandFailedError (TypeError "float argument required, not str")
       = false.
Proof.
  intros Hrun Hfuel.
  exists (failed_attempts command 0 printEnv logger 3 0).
  split; [|split; [|split]].
  - apply runWithRetries_exhausted; (assumption || lia || apply sleep_zero).
  - apply launches_failed_attempts.
  - apply sleeps_failed_attempts.
  - reflexivity.
Qed.

(** C4. When the first two launches exit with a non-zero status and the
    third with zero, [runWithRetries] with at least three retries allowed
    and a delay that [time.sleep] takes (zero is one) launches the command
    three times and returns normally; it sleeps after each of the two
    failures, and the third launch is the last thing it does. *)
Theorem success_on_third_attempt_returns
    (retries delay : Z) (fuel : nat) (out : string) (w w1 w2 : World) :
  failing_run command 2 w w1 ->
  spawn false (tokens command) os_environ w1 = (Exited 0 out, w2) ->
  3 <= retries ->
  sleep_check delay = None ->
  (2 < fuel)%nat ->
  exists t,
    runWithRetries fuel command retries delay printEnv logger w
    = (Ok tt, w2, (t ++ [EvSpawn false (tokens command) os_environ])%list)
    /\ launches (t ++ [EvSpawn false (tokens command) os_environ])%list
       = [tokens command; tokens command; tokens command]
    /\ sleeps (t ++ [EvSpawn false (tokens command) os_environ])%list
       = [delay; delay].
Proof.
  intros Hrun Hspawn Hretries Hdelay Hfuel.
  exists (failed_attempts command delay printEnv logger 2 0
          ++ preamble os_environ printEnv logger command)%list.
  rewrite <- app_assoc.
  change (preamble os_environ printEnv logger command
          ++ [EvSpawn false (tokens command) os_environ])%list
    with (last_attempt command printEnv logger).
  split; [|split].
  - apply (runWithRetries_succeeds command retries delay printEnv logger
             2 fuel out w w1 w2); (assumption || lia).
  - now rewrite launches_app, launches_failed_attempts, launches_last_attempt.
  - now rewrite sleeps_app, sleeps_failed_attempts, sleeps_last_attempt.
Qed.

(** C6. When, after any number of failed attempts (each followed by a
    sleep that [time.sleep] takes), the launch of an attempt raises an
    error that is neither [CalledProcessError] nor [CommandFailedError],
    [runWithRetries] ends with that error and in the state that launch
    left: after the events of the earlier attempts come those of the one
    launch, with no retry notice, no sleep and no further launch. *)
Theorem launch_error_leaves_retry_loop
    (retries delay : Z) (n fuel : nat) (e : exn) (w w1 w2 : World) :
  failing_run command n w w1 ->
  spawn false (tokens command) os_environ w1 = (LaunchFailed e, w2) ->
  is_CalledProcessError e = false ->
  is_CommandFailedError e = false ->
  Z.of_nat n < retries ->
  sleep_check delay = None ->
  (n < fuel)%nat ->
  exists t,
    runWithRetries fuel command retries delay printEnv logger w
    = (Raise e, w2,
       (failed_attempts command delay printEnv logger n 0 ++ t)%list)
    /\ launches t = [tokens command]
    /\ sleeps t = []
    /\ retry_notices t = 0%nat.
Proof.
  intros Hrun Hspawn Hcpe Hcfe Hn Hdelay Hfuel.
  exists (last_attempt command printEnv logger
          ++ launch_error_log logger command e)%list.
  split; [|split; [|split]].
  - apply (runWithRetries_launch_error command retries delay printEnv logger
             n fuel e w w1 w2); assumption.
  - now rewrite launches_app, launches_last_attempt, launches_launch_error_log.
  - now rewrite sleeps_app, sleeps_last_attempt, sleeps_launch_error_log.
  - apply no_notice_in_launch_error.
Qed.

(** C10. With [retries] zero or negative, [runWithRetries] does what
    follows its loop and nothing before: no launch, no sleep, no event at
    all and the world as it was, and it ends with an exception, not with
    a normal return. *)
Theorem no_attempt_without_retries
    (retries delay : Z) (fuel : nat) (w : World) :
  retries <= 0 ->
  (0 < fuel)%nat ->
  runWithRetries fuel command retries delay printEnv logger w
  = terminal_failure command retries w
  /\ terminal_failure (A := unit) command retries w
     = (Raise (TypeError "float argument required, not str"), w, []).
Proof.
  intros Hretries Hfuel.
  destruct fuel as [|fuel]; [lia|].
  split; [|apply terminal_failure_raises_TypeError].
  unfold runWithRetries, bind.
  rewrite retry_loop_exhausted by lia.
  rewrite terminal_failure_raises_TypeError. reflexivity.
Qed.

Lemma runWithOutput_not_stuck (env : option environ) (w : World) :
  fst (fst (runWithOutput command env printEnv logger w)) <> Stuck.
Proof.
  rewrite runWithOutput_unfold. cbn zeta.
  destruct (spawn _ _ _ w) as [[rc out|e] w'].
  - destruct (rc =? 0); discriminate.
  - destruct (is_CalledProcessError e), (is_Exception e); discriminate.
Qed.

(** With enough fuel the model of [runWithRetries] always ends: the loop
    is left after at most [retries] iterations. *)
Lemma retry_loop_not_stuck (retries delay : Z) (fuel : nat) :
  forall (attempts : Z) (w : World),
    (Z.to_nat (retries - attempts) < fuel)%nat ->
    fst (fst (retry_loop fuel command retries delay printEnv logger
                         attempts w)) <> Stuck.
Proof.
  induction fuel as [|fuel IH]; intros attempts w Hfuel; [lia|].
  cbn [retry_loop].
  destruct (Z.ltb_spec attempts retries) as [Hlt|Hge]; [|discriminate].
  unfold bind at 1. unfold try_except. unfold bind at 1.
  pose proof (runWithOutput_not_stuck None w) as Hrun.
  destruct (runWithOutput command None printEnv logger w)
    as [[[[]|e|] w'] t]; [discriminate | | now cbn in Hrun].
  destruct (is_CommandFailedError e); [|discriminate].
  assert (Hnext : fst (fst (retry_loop fuel command retries delay printEnv
                              logger (attempts + 1) w')) <> Stuck)
    by (apply IH; lia).
  unfold time_sleep.
  destruct logger, (sleep_check delay); cbn; try discriminate;
    destruct (retry_loop fuel command retries delay printEnv _
                (attempts + 1) w') as [[r s2] t2]; exact Hnext.
Qed.

Lemma runWithRetries_not_stuck (retries delay : Z) (fuel : nat) (w : World) :
  (Z.to_nat retries < fuel)%nat ->
  fst (fst (runWithRetries fuel command retries delay printEnv logger w))
  <> Stuck.
Proof.
  intros Hfuel. unfold runWithRetries, bind.
  pose proof (retry_loop_not_stuck retries delay fuel 0 w) as Hloop.
  destruct (retry_loop fuel command retries delay printEnv logger 0 w)
    as [[[[]|e|] w'] t]; cbn in *.
  - discriminate.
  - rewrite terminal_failure_raises_TypeError. discriminate.
  - discriminate.
  - exfalso. apply Hloop; [|reflexivity]. rewrite Z.sub_0_r. exact Hfuel.
Qed.

End RetryTheorems.

(** ** The theorems at concrete runs *)

Ltac script_fails :=
  repeat (eapply failing_cons; [reflexivity | discriminate | ]);
  apply failing_nil.

(** The command [false] failing three times in a row. *)
Lemma three_failures_at_false :
  failing_run (H := scripted example_environ) (CmdStr "false") 3
    [Exited 1 ""; Exited 1 ""; Exited 1 ""] []
  /\ (3 < 4)%nat
  /\ exists t,
       runWithRetries (H := scripted example_environ) 4 (CmdStr "false") 3 0
         false None [Exited 1 ""; Exited 1 ""; Exited 1 ""]
       = (Raise (TypeError "float argument required, not str"), [], t)
       /\ launches t = [["false"]; ["false"]; ["false"]]
       /\ sleeps t = [0; 0; 0]
       /\ is_CommandFailedError (TypeError "float argument required, not str")
          = false.
Proof.
  assert (Hrun : failing_run (H := scripted example_environ) (CmdStr "false")
                   3 [Exited 1 ""; Exited 1 ""; Exited 1 ""] [])
    by script_fails.
  split; [exact Hrun | split; [lia|]].
  apply (three_failures_end_in_TypeError (H := scripted example_environ)
           (CmdStr "false") false None 4 _ _ Hrun).
  lia.
Defined.

(** The text "echo  hello  " does not reach the launcher as the two
    tokens "echo" and "hello". *)
Lemma echo_hello_keeps_empty_token :
  launches (snd (executeCommand (H := scripted example_environ)
                   (CmdStr "echo  hello  ") None false None []))
  = [["echo"; ""; "hello"]]
  /\ launches (snd (executeCommand (H := scripted example_environ)
                      (CmdStr "echo  hello  ") None false None []))
     <> [["echo"; "hello"]].
Proof. split; [reflexivity | discriminate]. Qed.

(** The command "false ", with a blank at its end, exiting with 1. *)
Lemma stripped_message_at_false_blank :
  spawn (OS := scripted example_environ) true (tokens (CmdStr "false "))
    example_environ [Exited 1 ""] = (Exited 1 "", [])
  /\ 1 <> 0
  /\ spawn (OS := scripted example_environ) false (tokens (CmdStr "false "))
       example_environ [Exited 1 ""] = (Exited 1 "", [])
  /\ fst (fst (executeCommand (H := scripted example_environ)
                 (CmdStr "false ") None false None [Exited 1 ""]))
     = Raise (CommandFailedError "Failed to execute command: false")
  /\ fst (fst (runWithOutput (H := scripted example_environ)
                 (CmdStr "false ") None false None [Exited 1 ""]))
     = Raise (CommandFailedError "Failed to execute command: false")
  /\ PyStr.contains "false " "Failed to execute command: false" = false.
Proof.
  split; [reflexivity | split; [discriminate | split; [reflexivity|]]].
  apply (nonzero_exit_message_holds_stripped_text
           (H := scripted example_environ) None false None
           (CmdStr "false ") [Exited 1 ""] [] [] 1 1 "" "");
    (reflexivity || discriminate).
Defined.

(** [make test] failing twice, then passing. *)
Lemma third_attempt_succeeds_at_make_test :
  failing_run (H := scripted example_environ) (CmdStr "make test") 2
    [Exited 2 ""; Exited 2 ""; Exited 0 ""] [Exited 0 ""]
  /\ exists t,
       runWithRetries (H := scripted example_environ) 3 (CmdStr "make test")
         3 0 false (Some "deploy") [Exited 2 ""; Exited 2 ""; Exited 0 ""]
       = (Ok tt, [],
          (t ++ [EvSpawn false ["make"; "test"] example_environ])%list)
       /\ launches (t ++ [EvSpawn false ["make"; "test"] example_environ])%list
          = [["make"; "test"]; ["make"; "test"]; ["make"; "test"]]
       /\ sleeps (t ++ [EvSpawn false ["make"; "test"] example_environ])%list
          = [0; 0].
Proof.
  assert (Hrun : failing_run (H := scripted example_environ)
                   (CmdStr "make test") 2
                   [Exited 2 ""; Exited 2 ""; Exited 0 ""] [Exited 0 ""])
    by script_fails.
  split; [exact Hrun|].
  apply (success_on_third_attempt_returns (H := scripted example_environ)
           (CmdStr "make test") false (Some "deploy") 3 0 3 "" _ _ [] Hrun);
    (reflexivity || lia).
Defined.

(** A program that does not exist, with a logger. *)
Lemma launch_error_at_missing_program :
  is_CalledProcessError (OSError "[Errno 2] No such file or directory") = false
  /\ is_Exception (OSError "[Errno 2] No such file or directory") = true
  /\ runWithOutput (H := scripted example_environ) (CmdList ["lss"; "-la"])
       (Some [("LANG", "C")]) true (Some "deploy")
       [LaunchFailed (OSError "[Errno 2] No such file or directory")]
     = (Raise (OSError "[Errno 2] No such file or directory"), [],
        [EvPrintEnv [("LANG", "C")] (Some "deploy");
         EvDebug "deploy" (VList ["lss"; "-la"]) [];
         EvSpawn false ["lss"; "-la"] [("LANG", "C")];
         EvException "deploy" (VStr "check_call failed for command=lss -la")]).
Proof.
  split; [reflexivity | split; [reflexivity|]].
  apply (launch_error_reraised_unchanged (H := scripted example_environ)
           (Some [("LANG", "C")]) true (Some "deploy")
           (CmdList ["lss"; "-la"])
           (OSError "[Errno 2] No such file or directory")
           [LaunchFailed (OSError "[Errno 2] No such file or directory")] []);
    reflexivity.
Defined.

(** A failed attempt, then a launch that raises. *)
Lemma launch_error_on_second_attempt :
  failing_run (H := scripted example_environ) (CmdList ["sync-repo"]) 1
    [Exited 1 ""; LaunchFailed (OSError "[Errno 12] Cannot allocate memory");
     Exited 0 ""]
    [LaunchFailed (OSError "[Errno 12] Cannot allocate memory"); Exited 0 ""]
  /\ exists t,
       runWithRetries (H := scripted example_environ) 2 (CmdList ["sync-repo"])
         3 0 false (Some "deploy")
         [Exited 1 "";
          LaunchFailed (OSError "[Errno 12] Cannot allocate memory");
          Exited 0 ""]
       = (Raise (OSError "[Errno 12] Cannot allocate memory"), [Exited 0 ""],
          (failed_attempts (H := scripted example_environ)
             (CmdList ["sync-repo"]) 0 false (Some "deploy") 1 0 ++ t)%list)
       /\ launches t = [["sync-repo"]]
       /\ sleeps t = []
       /\ retry_notices t = 0%nat.
Proof.
  assert (Hrun : failing_run (H := scripted example_environ)
                   (CmdList ["sync-repo"]) 1
                   [Exited 1 "";
                    LaunchFailed (OSError "[Errno 12] Cannot allocate memory");
                    Exited 0 ""]
                   [LaunchFailed (OSError "[Errno 12] Cannot allocate memory");
                    Exited 0 ""])
    by script_fails.
  split; [exact Hrun|].
  apply (launch_error_leaves_retry_loop (H := scripted example_environ)
           (CmdList ["sync-repo"]) false (Some "deploy") 3 0 1 2
           (OSError "[Errno 12] Cannot allocate memory") _ _ [Exited 0 ""]
           Hrun);
    (reflexivity || lia).
Defined.

(** An output with a blank before and a line feed after. *)
Lemma stripped_output_at_echo :
  executeCommand (H := scripted example_environ) (CmdStr "echo  hello  ")
    None false None [Exited 0 (" hello" ++ LF)]
  = (Ok "hello", [], [EvSpawn true ["echo"; ""; "hello"] example_environ])
  /\ (exists l r, PyStr.all_space l = true /\ PyStr.all_space r = true
                  /\ " hello" ++ LF = l ++ "hello" ++ r)
  /\ PyStr.leading_space "hello" = false
  /\ PyStr.trailing_space "hello" = false.
Proof.
  apply (executeCommand_returns_stripped_output
           (H := scripted example_environ) None false None
           (CmdStr "echo  hello  ") (" hello" ++ LF)
           [Exited 0 (" hello" ++ LF)] []).
  reflexivity.
Defined.

(** [retries = 0]: the script of launches is left untouched. *)
Lemma no_attempt_at_zero_retries :
  0 <= 0
  /\ (0 < 1)%nat
  /\ runWithRetries (H := scripted example_environ) 1 (CmdStr "false") 0 5
       true (Some "deploy") [Exited 1 ""]
     = terminal_failure (CmdStr "false") 0 [Exited 1 ""]
  /\ terminal_failure (A := unit) (CmdStr "false") 0 [Exited 1 ""]
     = (Raise (TypeError "float argument required, not str"),
        [Exited 1 ""], []).
Proof.
  split; [lia | split; [lia|]].
  apply (no_attempt_without_retries (H := scripted example_environ)
           (CmdStr "false") true (Some "deploy") 0 5 1 [Exited 1 ""]); lia.
Defined.

(** The environment given by the caller, and the default one. *)
Lemma printEnv_at_given_and_default_env :
  (printed_envs (snd (executeCommand (H := scripted example_environ)
                        (CmdStr "make test") (Some [("LANG", "C")]) true
                        (Some "deploy") [Exited 2 ""]))
   = [[("LANG", "C")]]
   /\ printed_envs (snd (runWithOutput (H := scripted example_environ)
                           (CmdStr "make test") (Some [("LANG", "C")]) true
                           (Some "deploy") [Exited 2 ""]))
      = [[("LANG", "C")]])
  /\ (printed_envs (snd (executeCommand (H := scripted example_environ)
                           (CmdStr "make test") None true None []))
      = [example_environ]
      /\ printed_envs (snd (runWithOutput (H := scripted example_environ)
                              (CmdStr "make test") None true None []))
         = [example_environ])
  /\ (printed_envs (snd (executeCommand (H := scripted example_environ)
                           (CmdStr "make test") (Some [("LANG", "C")]) false
                           None []))
      = []
      /\ printed_envs (snd (runWithOutput (H := scripted example_environ)
                              (CmdStr "make test") (Some [("LANG", "C")])
                              false None []))
         = []).
Proof.
  split; [|split].
  - apply (printEnv_called_once_with_effective_env
             (H := scripted example_environ) (Some [("LANG", "C")]) true
             (Some "deploy") (CmdStr "make test") [Exited 2 ""]).
  - apply (printEnv_called_once_with_effective_env
             (H := scripted example_environ) None true None
             (CmdStr "make test") []).
  - apply (printEnv_called_once_with_effective_env
             (H := scripted example_environ) (Some [("LANG", "C")]) false
             None (CmdStr "make test") []).
Defined.

(** ** Every run of the retry loop *)

(** The three ways one [runWithOutput] of an attempt can end. *)
Lemma runWithOutput_cases {World : Type} `{OS World}
    (command : command_t) (printEnv : bool) (logger : option logger_t)
    (w : World) :
  let '(r, _, t) := runWithOutput command None printEnv logger w in
  (r = Ok tt /\ t = last_attempt command printEnv logger)
  \/ (exists m log,
        r = Raise (CommandFailedError m)
        /\ caught_log command logger log
        /\ t = (last_attempt command printEnv logger ++ log)%list)
  \/ (exists e,
        r = Raise e
        /\ is_CommandFailedError e = false
        /\ t = (last_attempt command printEnv logger
                ++ launch_error_log logger command e)%list).
Proof.
  rewrite runWithOutput_unfold. cbn zeta. cbn [effective_env].
  unfold last_attempt, caught_log.
  destruct (spawn false _ _ w) as [[rc out|e] w'].
  - destruct (rc =? 0); cbv beta iota; [now left|].
    right; left. exists (failed_to_execute command), [].
    rewrite app_nil_r. auto.
  - destruct (is_CalledProcessError e) eqn:Hcpe.
    + cbv beta iota.
      right; left. exists (failed_to_execute command), [].
      rewrite app_nil_r. auto.
    + destruct (is_CommandFailedError e) eqn:Hcfe.
      * destruct e; try discriminate. cbn [is_Exception]. cbv beta iota.
        right; left. exists msg, (launch_error_log logger command
                                    (CommandFailedError msg)).
        split; [reflexivity | split; [right; now exists msg | reflexivity]].
      * destruct (is_Exception e) eqn:Hexc; cbv beta iota;
          right; right; exists e; unfold launch_error_log;
          rewrite Hexc, ?app_nil_r; auto.
Qed.

(** An attempt that returns leaves the loop by its [return]. *)
Lemma retry_loop_returned {World : Type} `{OS World}
    (command : command_t) (retries delay : Z) (printEnv : bool)
    (logger : option logger_t) (fuel : nat) (attempts : Z)
    (w w' : World) (t : trace) :
  attempts < retries ->
  runWithOutput command None printEnv logger w = (Ok tt, w', t) ->
  retry_loop (S fuel) command retries delay printEnv logger attempts w
  = (Ok Returned, w', t).
Proof.
  intros Hlt Hrun. cbn [retry_loop].
  destruct (Z.ltb_spec attempts retries); [|lia].
  unfold bind at 1. unfold try_except. unfold bind at 1.
  rewrite Hrun. cbn. now rewrite !app_nil_r.
Qed.

(** An attempt that raises [CommandFailedError] is followed by the
    notice and the sleep, and by the rest of the loop when the sleep is
    accepted. *)
Lemma retry_loop_caught {World : Type} `{OS World}
    (command : command_t) (retries delay : Z) (printEnv : bool)
    (logger : option logger_t) (fuel : nat) (attempts : Z)
    (w w' : World) (t : trace) (m : string) :
  attempts < retries ->
  runWithOutput command None printEnv logger w
  = (Raise (CommandFailedError m), w', t) ->
  retry_loop (S fuel) command retries delay printEnv logger attempts w
  = match sleep_check delay with
    | Some err =>
        (Raise (exn_of_sleep_error err), w',
         (t ++ notice logger command delay (attempts + 1))%list)
    | None =>
        match retry_loop fuel command retries delay printEnv logger
                (attempts + 1) w' with
        | (r, w2, t2) =>
            (r, w2,
             (t ++ notice logger command delay (attempts + 1)
                ++ [EvSleep delay] ++ t2)%list)
        end
    end.
Proof.
  intros Hlt Hrun. cbn [retry_loop].
  destruct (Z.ltb_spec attempts retries); [|lia].
  unfold bind at 1. unfold try_except. unfold bind at 1.
  rewrite Hrun. cbn [is_CommandFailedError]. unfold time_sleep, notice.
  destruct logger as [lg|], (sleep_check delay) as [err|]; cbn;
    try destruct (retry_loop fuel command retries delay printEnv _
                    (attempts + 1) w') as [[r w2] t2];
    rewrite <- ?app_assoc, ?app_nil_r; reflexivity.
Qed.

(** With enough fuel, whatever the launches do, the loop ends in one of
    the shapes of [loop_shape]. *)
Lemma retry_loop_shape {World : Type} `{OS World}
    (command : command_t) (retries delay : Z) (printEnv : bool)
    (logger : option logger_t) (fuel : nat) :
  forall (attempts : Z) (w : World),
    (Z.to_nat (retries - attempts) < fuel)%nat ->
    loop_shape command retries delay printEnv logger attempts
      (fst (fst (retry_loop fuel command retries delay printEnv logger
                   attempts w)))
      (snd (retry_loop fuel command retries delay printEnv logger attempts w)).
Proof.
  induction fuel as [|fuel IH]; intros attempts w Hfuel; [lia|].
  destruct (Z.ltb_spec attempts retries) as [Hlt|Hge].
  - pose proof (runWithOutput_cases command printEnv logger w) as Hcases.
    destruct (runWithOutput command None printEnv logger w)
      as [[r w'] t] eqn:Hrun.
    destruct Hcases as [[-> ->] | [(m & log & -> & Hlog & ->)
                                  | (e & -> & Hcfe & ->)]].
    + rewrite (retry_loop_returned command retries delay printEnv logger
                 fuel attempts w w' _ Hlt Hrun).
      now apply shape_returned.
    + rewrite (retry_loop_caught command retries delay printEnv logger
                 fuel attempts w w' _ m Hlt Hrun).
      destruct (sleep_check delay) as [err|] eqn:Hsleep.
      * cbn [fst snd].
        apply (shape_sleep_refused command retries delay printEnv logger
                 attempts log err); try assumption.
        now rewrite <- app_assoc.
      * specialize (IH (attempts + 1) w' ltac:(lia)).
        destruct (retry_loop fuel command retries delay printEnv logger
                    (attempts + 1) w') as [[r w2] t2].
        cbn [fst snd] in *.
        apply (shape_retried command retries delay printEnv logger
                 attempts log r t2); try assumption.
        now rewrite <- app_assoc.
    + rewrite (retry_loop_other_error command retries delay printEnv logger
                 fuel attempts e w w' _ Hlt Hrun Hcfe).
      now apply shape_propagated.
  - rewrite retry_loop_exhausted by exact Hge.
    now apply shape_exhausted.
Qed.

(** *** Projections of the parts of a run *)

Lemma spawns_app (t1 t2 : trace) :
  spawns (t1 ++ t2)%list = (spawns t1 ++ spawns t2)%list.
Proof.
  induction t1 as [|ev t1 IH]; [reflexivity|].
  destruct ev; simpl; now rewrite IH.
Qed.

Lemma log_events_app (t1 t2 : trace) :
  log_events (t1 ++ t2)%list = (log_events t1 ++ log_events t2)%list.
Proof. apply filter_app. Qed.

Lemma notice_numbers_app (t1 t2 : trace) :
  notice_numbers (t1 ++ t2)%list
  = (notice_numbers t1 ++ notice_numbers t2)%list.
Proof.
  induction t1 as [|ev t1 IH]; [reflexivity|].
  destruct ev as [env lg|lg msg args|lg msg|capture argv env|secs];
    try (simpl; exact IH).
  destruct msg as [m|n|l|a b]; try (simpl; exact IH).
  destruct args as [|[s|a|l|a b] rest]; try (simpl; exact IH).
  cbn [app notice_numbers].
  destruct (is_retry_notice _); [|exact IH].
  simpl. now rewrite IH.
Qed.

Section Parts.
Context {World : Type} `{OS World}.
Variables (command : command_t) (delay : Z).
Variables (printEnv : bool) (logger : option logger_t).

Local Abbreviation final := (last_attempt command printEnv logger).

Lemma spawns_last_attempt :
  spawns final = [(false, tokens command, os_environ)].
Proof. unfold last_attempt, preamble. now destruct printEnv, logger. Qed.

Lemma printed_envs_last_attempt :
  printed_envs final = if printEnv then [os_environ] else [].
Proof. unfold last_attempt, preamble. now destruct printEnv, logger. Qed.

Lemma notice_numbers_last_attempt : notice_numbers final = [].
Proof.
  unfold last_attempt, preamble.
  now destruct printEnv, logger, command.
Qed.

Lemma notice_projections (attempt : Z) :
  spawns (notice logger command delay attempt) = []
  /\ sleeps (notice logger command delay attempt) = []
  /\ printed_envs (notice logger command delay attempt) = []
  /\ notice_numbers (notice logger command delay attempt)
     = match logger with Some _ => [attempt] | None => [] end.
Proof. unfold notice. now destruct logger. Qed.

Lemma caught_log_projections (log : trace) :
  caught_log command logger log ->
  spawns log = [] /\ sleeps log = [] /\ printed_envs log = []
  /\ notice_numbers log = []
  /\ (logger = None -> log = []).
Proof.
  intros [->|[m ->]]; [now repeat split|].
  unfold launch_error_log. cbn [is_Exception].
  now destruct logger.
Qed.

Lemma launch_error_log_projections (e : exn) :
  spawns (launch_error_log logger command e) = []
  /\ printed_envs (launch_error_log logger command e) = []
  /\ notice_numbers (launch_error_log logger command e) = []
  /\ (logger = None -> launch_error_log logger command e = []).
Proof. unfold launch_error_log. now destruct (is_Exception e), logger. Qed.

End Parts.

(** *** What every shape shows *)

Section Shapes.
Context {World : Type} `{OS World}.
Variables (command : command_t) (retries delay : Z) (printEnv : bool).

(** Launches, sleeps and printed environments of a run of the loop. *)
Lemma shape_counts (logger : option logger_t) (attempts : Z)
    (r : result loop_exit) (t : trace) :
  loop_shape command retries delay printEnv logger attempts r t ->
  exists k j : nat,
    (k <= Z.to_nat (retries - attempts))%nat
    /\ (j <= k)%nat
    /\ spawns t = repeat (false, tokens command, os_environ) k
    /\ sleeps t = repeat delay j
    /\ printed_envs t = (if printEnv then repeat os_environ k else [])
    /\ (r = Ok Returned -> k = S j)
    /\ (r = Ok Exhausted -> j = k /\ k = Z.to_nat (retries - attempts)).
Proof.
  induction 1 as [a Hge | a Hlt | a e t Hlt He Ht | a log err t Hlt Hneg Hlog Ht
                 | a log r t' t Hlt Hpos Hlog Hrest IH Ht].
  - exists 0%nat, 0%nat. repeat split; try lia; now destruct printEnv.
  - exists 1%nat, 0%nat.
    rewrite spawns_last_attempt, sleeps_last_attempt,
      printed_envs_last_attempt.
    repeat split; try lia; try discriminate; now destruct printEnv.
  - exists 1%nat, 0%nat. subst t.
    destruct (launch_error_log_projections command logger e)
      as (Hs & Hp & _).
    rewrite spawns_app, sleeps_app, printed_envs_app, Hs, Hp,
      sleeps_launch_error_log, spawns_last_attempt, sleeps_last_attempt,
      printed_envs_last_attempt.
    repeat split; try lia; try discriminate; now destruct printEnv.
  - exists 1%nat, 0%nat. subst t.
    destruct (caught_log_projections command logger log Hlog)
      as (Hs & Hz & Hp & _).
    destruct (notice_projections command delay logger (a + 1))
      as (Hs' & Hz' & Hp' & _).
    rewrite !spawns_app, !sleeps_app, !printed_envs_app, Hs, Hz, Hp, Hs',
      Hz', Hp', spawns_last_attempt, sleeps_last_attempt,
      printed_envs_last_attempt.
    repeat split; try lia; try discriminate; now destruct printEnv.
  - destruct IH as (k & j & Hk & Hj & Hsp & Hsl & Hpr & Hret & Hexh).
    exists (S k), (S j). subst t.
    destruct (caught_log_projections command logger log Hlog)
      as (Hs & Hz & Hp & _).
    destruct (notice_projections command delay logger (a + 1))
      as (Hs' & Hz' & Hp' & _).
    rewrite !spawns_app, !sleeps_app, !printed_envs_app, Hs, Hz, Hp, Hs',
      Hz', Hp', spawns_last_attempt, sleeps_last_attempt,
      printed_envs_last_attempt, Hsp, Hsl, Hpr.
    refine (conj _ (conj _ (conj _ (conj _ (conj _ (conj _ _))))));
      [ lia | lia | reflexivity | reflexivity | now destruct printEnv
      | intros Hr; specialize (Hret Hr); lia
      | intros Hr; specialize (Hexh Hr); lia ].
Qed.

(** A run left by [return] ends with its last launch. *)
Lemma shape_returned_last (logger : option logger_t) (attempts : Z)
    (r : result loop_exit) (t : trace) :
  loop_shape command retries delay printEnv logger attempts r t ->
  r = Ok Returned ->
  exists t0, t = (t0 ++ [EvSpawn false (tokens command) os_environ])%list.
Proof.
  induction 1 as [a Hge | a Hlt | a e t Hlt He Ht | a log err t Hlt Hneg Hlog Ht
                 | a log r t' t Hlt Hpos Hlog Hrest IH Ht];
    intros Hr; try discriminate.
  - now exists (preamble os_environ printEnv logger command).
  - destruct (IH Hr) as [t0 ->]. subst t.
    exists (last_attempt command printEnv logger ++ log
            ++ notice logger command delay (a + 1) ++ [EvSleep delay]
            ++ t0)%list.
    now rewrite <- !app_assoc.
Qed.

(** The loop never lets a [CommandFailedError] out. *)
Lemma shape_no_CommandFailedError (logger : option logger_t) (attempts : Z)
    (r : result loop_exit) (t : trace) :
  loop_shape command retries delay printEnv logger attempts r t ->
  forall m, r <> Raise (CommandFailedError m).
Proof.
  induction 1 as [a Hge | a Hlt | a e t Hlt He Ht
                 | a log err t Hlt Hneg Hlog Ht
                 | a log r t' t Hlt Hpos Hlog Hrest IH Ht];
    intros m Hr; try discriminate.
  - injection Hr as ->. discriminate.
  - destruct err; discriminate.
  - now apply (IH m).
Qed.

(** Without a logger nothing is logged. *)
Lemma shape_silent (attempts : Z) (r : result loop_exit) (t : trace) :
  loop_shape command retries delay printEnv None attempts r t ->
  log_events t = [].
Proof.
  assert (Hfinal : log_events (last_attempt command printEnv None) = [])
    by (unfold last_attempt, preamble; now destruct printEnv).
  remember None as logger eqn:Hlogger.
  induction 1 as [a Hge | a Hlt | a e t Hlt He Ht | a log err t Hlt Hneg Hlog Ht
                 | a log r t' t Hlt Hpos Hlog Hrest IH Ht]; subst logger.
  - reflexivity.
  - exact Hfinal.
  - subst t.
    destruct (launch_error_log_projections command None e) as (_ & _ & _ & Hn).
    now rewrite (Hn eq_refl), app_nil_r.
  - subst t.
    destruct (caught_log_projections command None log Hlog)
      as (_ & _ & _ & _ & Hn).
    rewrite (Hn eq_refl). cbn [notice app]. now rewrite app_nil_r.
  - subst t.
    destruct (caught_log_projections command None log Hlog)
      as (_ & _ & _ & _ & Hn).
    rewrite (Hn eq_refl). cbn [notice app].
    rewrite log_events_app, Hfinal. cbn. now apply IH.
Qed.

(** With a logger the notices count the attempts from the counter on. *)
Lemma shape_notices (lg : logger_t) (attempts : Z)
    (r : result loop_exit) (t : trace) :
  loop_shape command retries delay printEnv (Some lg) attempts r t ->
  notice_numbers t
  = map (fun i => attempts + Z.of_nat i)
        (seq 1 (List.length (notice_numbers t)))
  /\ (sleep_check delay = None ->
      List.length (notice_numbers t) = List.length (sleeps t)).
Proof.
  induction 1 as [a Hge | a Hlt | a e t Hlt He Ht | a log err t Hlt Hneg Hlog Ht
                 | a log r t' t Hlt Hpos Hlog Hrest IH Ht].
  - now split.
  - rewrite notice_numbers_last_attempt, sleeps_last_attempt. now split.
  - subst t.
    destruct (launch_error_log_projections command (Some lg) e)
      as (_ & _ & Hn & _).
    rewrite notice_numbers_app, sleeps_app, Hn, notice_numbers_last_attempt,
      sleeps_last_attempt, sleeps_launch_error_log.
    now split.
  - subst t.
    destruct (caught_log_projections command (Some lg) log Hlog)
      as (_ & _ & _ & Hn & _).
    rewrite !notice_numbers_app, Hn, notice_numbers_last_attempt.
    split; [reflexivity | intros Hdone; congruence].
  - subst t. destruct IH as [IHn IHlen].
    destruct (caught_log_projections command (Some lg) log Hlog)
      as (_ & Hz & _ & Hn & _).
    destruct (notice_projections command delay (Some lg) (a + 1))
      as (_ & Hz' & _ & Hn').
    rewrite !notice_numbers_app, !sleeps_app, Hn, Hz, Hn', Hz',
      notice_numbers_last_attempt, sleeps_last_attempt.
    cbn [notice_numbers app sleeps List.length]. split.
    + cbn [seq map]. f_equal.
      rewrite <- seq_shift, map_map. rewrite IHn at 1.
      apply map_ext. intros i. lia.
    + intros Hdone. f_equal. now apply IHlen.
Qed.

End Shapes.

(** ** More on strings *)

Lemma lstrip_all_space (s : string) :
  PyStr.all_space s = true -> PyStr.lstrip s = "".
Proof.
  induction s as [|c s IH]; [reflexivity|]. simpl.
  destruct (PyStr.isspace c); [exact IH | discriminate].
Qed.

Lemma strip_all_space (s : string) :
  PyStr.all_space s = true -> PyStr.strip s = "".
Proof. intros Hs. unfold PyStr.strip. now rewrite lstrip_all_space. Qed.

Lemma rstrip_fixed (s : string) :
  PyStr.trailing_space s = false -> PyStr.rstrip s = s.
Proof.
  induction s as [|c s IH]; [reflexivity|].
  destruct s as [|d u].
  - simpl. now intros ->.
  - intros Ht. change (PyStr.trailing_space (String d u) = false) in Ht.
    specialize (IH Ht). cbn [PyStr.rstrip] in *. now rewrite IH.
Qed.

Lemma strip_fixed (s : string) :
  PyStr.leading_space s = false ->
  PyStr.trailing_space s = false ->
  PyStr.strip s = s.
Proof.
  intros Hl Ht. unfold PyStr.strip.
  assert (Hs : PyStr.lstrip s = s)
    by (destruct s as [|c s]; [reflexivity | simpl in *; now rewrite Hl]).
  rewrite Hs. now apply rstrip_fixed.
Qed.

Lemma split_without_sep (sep : ascii) (x : string) :
  PyStr.mem_char sep x = false -> PyStr.split sep x = [x].
Proof.
  induction x as [|c x IH]; [reflexivity|]. simpl.
  rewrite Ascii.eqb_sym.
  destruct (Ascii.eqb c sep); [discriminate|].
  intros Hx. now rewrite (IH Hx).
Qed.

Lemma split_app_sep (sep : ascii) (x r : string) :
  PyStr.mem_char sep x = false ->
  PyStr.split sep (x ++ String sep r) = x :: PyStr.split sep r.
Proof.
  induction x as [|c x IH]; simpl.
  - now rewrite Ascii.eqb_refl.
  - rewrite Ascii.eqb_sym.
    destruct (Ascii.eqb c sep); [discriminate|].
    intros Hx. now rewrite (IH Hx).
Qed.

(** Splitting the join of tokens that hold no separator gives the
    tokens back. *)
Lemma split_join (sep : ascii) (l : list string) :
  l <> [] ->
  Forall (fun t => PyStr.mem_char sep t = false) l ->
  PyStr.split sep (PyStr.join (String sep "") l) = l.
Proof.
  unfold PyStr.join.
  induction l as [|x l IH]; [congruence|]. intros _ Hall.
  inversion Hall as [|? ? Hx Hl]; subst.
  destruct l as [|y l].
  - now apply split_without_sep.
  - rewrite concat_cons by discriminate.
    change (String sep "" ++ String.concat (String sep "") (y :: l))
      with (String sep (String.concat (String sep "") (y :: l))).
    rewrite split_app_sep by exact Hx.
    now rewrite IH by (discriminate || exact Hl).
Qed.


Lemma no_whitespace_no_blank (t : string) :
  no_whitespace t = true -> PyStr.mem_char " " t = false.
Proof.
  induction t as [|c t IH]; [reflexivity|].
  cbn [no_whitespace PyStr.mem_char].
  destruct (Ascii.eqb_spec " "%char c) as [<-|Hne]; [discriminate|].
  intros Hc. apply andb_prop in Hc as [_ Ht]. exact (IH Ht).
Qed.

Lemma no_whitespace_trailing (t : string) :
  no_whitespace t = true -> PyStr.trailing_space t = false.
Proof.
  induction t as [|c t IH]; [reflexivity|]. simpl.
  destruct (PyStr.isspace c); [discriminate|].
  destruct t; [reflexivity | exact IH].
Qed.

Lemma trailing_space_app (x y : string) :
  y <> "" -> PyStr.trailing_space (x ++ y) = PyStr.trailing_space y.
Proof.
  intros Hy. induction x as [|c x IH]; [reflexivity|].
  cbn [append PyStr.trailing_space].
  destruct (x ++ y) eqn:E; [|exact IH].
  destruct x; [simpl in E; congruence | discriminate].
Qed.

Lemma plain_token_spec (t : string) :
  plain_token t = true ->
  t <> "" /\ no_whitespace t = true /\ PyStr.leading_space t = false.
Proof.
  unfold plain_token. destruct t as [|c t]; [discriminate|]. simpl.
  destruct (PyStr.isspace c); [discriminate|]. now repeat split.
Qed.

(** The join of plain tokens neither starts nor ends with whitespace,
    and is not empty. *)
Lemma join_plain_tokens (l : list string) :
  l <> [] ->
  forallb plain_token l = true ->
  PyStr.join " " l <> ""
  /\ PyStr.leading_space (PyStr.join " " l) = false
  /\ PyStr.trailing_space (PyStr.join " " l) = false.
Proof.
  unfold PyStr.join.
  induction l as [|x l IH]; [congruence|]. intros _ Hall.
  cbn [forallb] in Hall. apply andb_prop in Hall as [Hx Hl].
  destruct (plain_token_spec x Hx) as (Hne & Hnw & Hlead).
  destruct l as [|y l].
  - cbn [String.concat]. repeat split; try assumption.
    now apply no_whitespace_trailing.
  - rewrite concat_cons by discriminate.
    destruct (IH ltac:(discriminate) Hl) as (IHne & _ & IHtrail).
    destruct x as [|c x]; [congruence|].
    repeat split; [discriminate | exact Hlead |].
    rewrite trailing_space_app by discriminate.
    change (" " ++ String.concat " " (y :: l))
      with (String " " (String.concat " " (y :: l))).
    cbn [PyStr.trailing_space].
    destruct (String.concat " " (y :: l)); [congruence | exact IHtrail].
Qed.

Lemma tokens_of_joined (l : list string) :
  l <> [] ->
  forallb plain_token l = true ->
  tokens (CmdStr (PyStr.join " " l)) = l.
Proof.
  intros Hne Hall. cbn [tokens].
  destruct (join_plain_tokens l Hne Hall) as (_ & Hlead & Htrail).
  rewrite strip_fixed by assumption.
  apply (split_join " "); [exact Hne|].
  apply Forall_forall. intros t Ht.
  rewrite forallb_forall in Hall.
  destruct (plain_token_spec t (Hall t Ht)) as (_ & Hnw & _).
  now apply no_whitespace_no_blank.
Qed.

(** ** Further properties of one run *)

Section OneRunMore.
Context {World : Type} `{OS World}.
Variables (env : option environ) (printEnv : bool).

(** X1. [executeCommand] has no handler for a launch that raises
    anything but [CalledProcessError]: the error leaves as it is, and
    nothing is logged for it even when there is a logger; the launch is
    the last event. *)
Theorem executeCommand_launch_error_unlogged
    (logger : option logger_t) (command : command_t) (e : exn)
    (w w' : World) :
  spawn true (tokens command) (effective_env env) w = (LaunchFailed e, w') ->
  is_CalledProcessError e = false ->
  executeCommand command env printEnv logger w =
  (Raise e, w',
   (preamble (effective_env env) printEnv logger command
    ++ [EvSpawn true (tokens command) (effective_env env)])%list).
Proof.
  intros Hspawn Hcpe. rewrite executeCommand_unfold. cbn zeta.
  now rewrite Hspawn, Hcpe.
Qed.

(** X2. An exception of the launch that is not an [Exception] (a
    [KeyboardInterrupt]) passes through [runWithOutput] without the
    exception message being logged. *)
Theorem runWithOutput_non_Exception_unlogged
    (logger : option logger_t) (command : command_t) (e : exn)
    (w w' : World) :
  spawn false (tokens command) (effective_env env) w = (LaunchFailed e, w') ->
  is_Exception e = false ->
  runWithOutput command env printEnv logger w =
  (Raise e, w',
   (preamble (effective_env env) printEnv logger command
    ++ [EvSpawn false (tokens command) (effective_env env)])%list).
Proof.
  intros Hspawn Hexc. rewrite runWithOutput_unfold. cbn zeta.
  rewrite Hspawn, Hexc. now destruct e.
Qed.

(** X3. When the child exits with status zero and wrote nothing but
    whitespace (or nothing at all), [executeCommand] returns the empty
    string. *)
Theorem executeCommand_blank_output_is_empty
    (logger : option logger_t) (command : command_t) (out : string)
    (w w' : World) :
  spawn true (tokens command) (effective_env env) w = (Exited 0 out, w') ->
  PyStr.all_space out = true ->
  fst (fst (executeCommand command env printEnv logger w)) = Ok "".
Proof.
  intros Hspawn Hout. rewrite executeCommand_unfold. cbn zeta.
  rewrite Hspawn. cbn. now rewrite strip_all_space.
Qed.

(** X4. A command string that is empty or holds only whitespace is not
    refused: [executeCommand] and [runWithOutput] launch the argument
    vector made of one empty token. *)
Theorem blank_command_launches_empty_token
    (logger : option logger_t) (s : string) (w : World) :
  PyStr.all_space s = true ->
  launches (snd (executeCommand (CmdStr s) env printEnv logger w)) = [[""]]
  /\ launches (snd (runWithOutput (CmdStr s) env printEnv logger w)) = [[""]].
Proof.
  intros Hs.
  rewrite launches_executeCommand, launches_runWithOutput.
  cbn [tokens]. now rewrite strip_all_space.
Qed.

(** X5. Tokens that are not empty and hold no whitespace can be given
    joined by single blanks as one string: normalization gives the same
    tokens back, and without a logger [executeCommand] and
    [runWithOutput] do on the string exactly what they do on the
    sequence. *)
Theorem joined_plain_tokens_run_alike (l : list string) (w : World) :
  l <> [] ->
  forallb plain_token l = true ->
  tokens (CmdStr (PyStr.join " " l)) = l
  /\ executeCommand (CmdStr (PyStr.join " " l)) env printEnv None w
     = executeCommand (CmdList l) env printEnv None w
  /\ runWithOutput (CmdStr (PyStr.join " " l)) env printEnv None w
     = runWithOutput (CmdList l) env printEnv None w.
Proof.
  intros Hne Hall.
  pose proof (tokens_of_joined l Hne Hall) as Htok.
  split; [exact Htok|].
  rewrite !executeCommand_unfold, !runWithOutput_unfold. cbn zeta.
  unfold failed_to_execute. rewrite Htok. cbn [tokens].
  split; reflexivity.
Qed.


End OneRunMore.

(** ** Further properties of [runWithRetries] *)

Section RetryMore.
Context {World : Type} `{OS World}.
Variables (command : command_t) (retries delay : Z) (printEnv : bool).

(** [runWithRetries] by the way its loop ends. *)
Lemma runWithRetries_by_loop (logger : option logger_t) (fuel : nat)
    (w : World) :
  runWithRetries fuel command retries delay printEnv logger w =
  match retry_loop fuel command retries delay printEnv logger 0 w with
  | (Ok Returned, w', t) => (Ok tt, w', t)
  | (Ok Exhausted, w', t) =>
      (Raise (TypeError "float argument required, not str"), w', t)
  | (Raise e, w', t) => (Raise e, w', t)
  | (Stuck, w', t) => (Stuck, w', t)
  end.
Proof.
  unfold runWithRetries, bind.
  destruct (retry_loop fuel command retries delay printEnv logger 0 w)
    as [[[[]|e|] w'] t]; try reflexivity.
  - cbn. now rewrite app_nil_r.
  - rewrite terminal_failure_raises_TypeError. now rewrite app_nil_r.
Qed.

(** The events of [runWithRetries] are those of its loop, which has one
    of the shapes. *)
Lemma runWithRetries_shape (logger : option logger_t) (fuel : nat)
    (w : World) :
  (Z.to_nat retries < fuel)%nat ->
  exists r,
    loop_shape command retries delay printEnv logger 0 r
      (snd (runWithRetries fuel command retries delay printEnv logger w))
    /\ fst (fst (runWithRetries fuel command retries delay printEnv logger w))
       = match r with
         | Ok Returned => Ok tt
         | Ok Exhausted =>
             Raise (TypeError "float argument required, not str")
         | Raise e => Raise e
         | Stuck => Stuck
         end.
Proof.
  intros Hfuel.
  pose proof (retry_loop_shape command retries delay printEnv logger fuel 0 w)
    as Hshape.
  rewrite Z.sub_0_r in Hshape. specialize (Hshape Hfuel).
  rewrite runWithRetries_by_loop.
  destruct (retry_loop fuel command retries delay printEnv logger 0 w)
    as [[r w'] t]. cbn [fst snd] in Hshape.
  exists r. destruct r as [[]|e|]; cbn [fst snd]; now split.
Qed.

(** X7. Whatever the launches do, [runWithRetries] makes at most
    [retries] of them, each of the same tokens, with the ambient
    environment and without capture. *)
Theorem runWithRetries_launches_bounded (logger : option logger_t)
    (fuel : nat) (w : World) :
  (Z.to_nat retries < fuel)%nat ->
  exists k : nat,
    (k <= Z.to_nat retries)%nat
    /\ spawns (snd (runWithRetries fuel command retries delay printEnv
                      logger w))
       = repeat (false, tokens command, os_environ) k.
Proof.
  intros Hfuel.
  destruct (runWithRetries_shape logger fuel w Hfuel) as (r & Hshape & _).
  destruct (shape_counts command retries delay printEnv logger 0 r _ Hshape)
    as (k & j & Hk & _ & Hsp & _).
  exists k. rewrite Z.sub_0_r in Hk. now split.
Qed.

(** X8. Every sleep of [runWithRetries] lasts [delay], and there is at
    most one sleep for each launch: the delay never grows. *)
Theorem runWithRetries_sleeps_constant (logger : option logger_t)
    (fuel : nat) (w : World) :
  (Z.to_nat retries < fuel)%nat ->
  exists j : nat,
    (j <= List.length
            (spawns (snd (runWithRetries fuel command retries delay printEnv
                            logger w))))%nat
    /\ sleeps (snd (runWithRetries fuel command retries delay printEnv
                      logger w))
       = repeat delay j.
Proof.
  intros Hfuel.
  destruct (runWithRetries_shape logger fuel w Hfuel) as (r & Hshape & _).
  destruct (shape_counts command retries delay printEnv logger 0 r _ Hshape)
    as (k & j & _ & Hj & Hsp & Hsl & _).
  exists j. rewrite Hsp, repeat_length. now split.
Qed.

(** X9. [runWithRetries] returns normally only when [retries] is
    positive, and then the last thing it did is a launch and it slept
    once less than it launched. *)
Theorem runWithRetries_returns_after_launch (logger : option logger_t)
    (fuel : nat) (w w' : World) (t : trace) :
  (Z.to_nat retries < fuel)%nat ->
  runWithRetries fuel command retries delay printEnv logger w = (Ok tt, w', t) ->
  0 < retries
  /\ (exists t0,
        t = (t0 ++ [EvSpawn false (tokens command) os_environ])%list)
  /\ List.length (launches t) = S (List.length (sleeps t)).
Proof.
  intros Hfuel Hrun.
  destruct (runWithRetries_shape logger fuel w Hfuel) as (r & Hshape & Hr).
  rewrite Hrun in Hshape, Hr. cbn [fst snd] in Hshape, Hr.
  assert (Hret : r = Ok Returned)
    by (destruct r as [[]|e|]; (reflexivity || discriminate)).
  destruct (shape_counts command retries delay printEnv logger 0 r t Hshape)
    as (k & j & Hk & _ & Hsp & Hsl & _ & Hkj & _).
  destruct (shape_returned_last command retries delay printEnv logger 0 r t
              Hshape Hret) as [t0 Ht0].
  specialize (Hkj Hret).
  split; [lia | split; [now exists t0|]].
  assert (Hl : List.length (launches t) = List.length (spawns t)).
  { clear. induction t as [|ev t IH]; [reflexivity|].
    destruct ev; simpl; now rewrite ?IH. }
  now rewrite Hl, Hsp, Hsl, !repeat_length.
Qed.

(** X10. [printEnv] is handed on to every attempt: when it is set the
    ambient environment is printed once for each launch, else never. *)
Theorem runWithRetries_prints_env_each_attempt (logger : option logger_t)
    (fuel : nat) (w : World) :
  (Z.to_nat retries < fuel)%nat ->
  printed_envs (snd (runWithRetries fuel command retries delay printEnv
                       logger w))
  = if printEnv
    then repeat os_environ
           (List.length
              (spawns (snd (runWithRetries fuel command retries delay
                              printEnv logger w))))
    else [].
Proof.
  intros Hfuel.
  destruct (runWithRetries_shape logger fuel w Hfuel) as (r & Hshape & _).
  destruct (shape_counts command retries delay printEnv logger 0 r _ Hshape)
    as (k & j & _ & _ & Hsp & _ & Hpr & _).
  now rewrite Hpr, Hsp, repeat_length.
Qed.

(** X11. [runWithRetries] never ends with a [CommandFailedError],
    whatever the launches do: those of its attempts are caught, and the
    terminal path raises a [TypeError] before it can raise one. *)
Theorem runWithRetries_never_CommandFailedError (logger : option logger_t)
    (fuel : nat) (w : World) (m : string) :
  (Z.to_nat retries < fuel)%nat ->
  fst (fst (runWithRetries fuel command retries delay printEnv logger w))
  <> Raise (CommandFailedError m).
Proof.
  intros Hfuel.
  destruct (runWithRetries_shape logger fuel w Hfuel) as (r & Hshape & ->).
  pose proof (shape_no_CommandFailedError command retries delay printEnv
                logger 0 r _ Hshape m) as Hno.
  destruct r as [[]|e|]; try discriminate.
  intros He. apply Hno. injection He as ->. reflexivity.
Qed.

(** X12. Without a logger [runWithRetries] logs nothing: no command, no
    retry notice, no exception message. *)
Theorem runWithRetries_silent_without_logger (fuel : nat) (w : World) :
  (Z.to_nat retries < fuel)%nat ->
  log_events (snd (runWithRetries fuel command retries delay printEnv
                     None w)) = [].
Proof.
  intros Hfuel.
  destruct (runWithRetries_shape None fuel w Hfuel) as (r & Hshape & _).
  exact (shape_silent command retries delay printEnv 0 r _ Hshape).
Qed.

(** X13. With a logger and a delay that [time.sleep] takes, a retry
    notice is logged for each sleep, and the notices carry the attempt
    numbers 1, 2, 3, ... in order. *)
Theorem runWithRetries_notices_count_attempts (lg : logger_t)
    (fuel : nat) (w : World) :
  (Z.to_nat retries < fuel)%nat ->
  sleep_check delay = None ->
  notice_numbers (snd (runWithRetries fuel command retries delay printEnv
                         (Some lg) w))
  = map Z.of_nat
      (seq 1 (List.length
                (sleeps (snd (runWithRetries fuel command retries delay
                                printEnv (Some lg) w))))).
Proof.
  intros Hfuel Hdelay.
  destruct (runWithRetries_shape (Some lg) fuel w Hfuel) as (r & Hshape & _).
  destruct (shape_notices command retries delay printEnv lg 0 r _ Hshape)
    as [Hn Hlen].
  rewrite <- (Hlen Hdelay). rewrite Hn at 1.
  apply map_ext. intros i. lia.
Qed.

(** X14. When the command fails [retries] times in a row, for any
    [retries] and a delay that [time.sleep] takes, it is launched that
    many times and every failure, the last one too, is followed by a
    sleep of [delay]; the call then ends with the [TypeError] of the
    terminal message. *)
Theorem runWithRetries_sleeps_after_every_failure (logger : option logger_t)
    (n fuel : nat) (w w1 : World) :
  failing_run command n w w1 ->
  retries = Z.of_nat n ->
  sleep_check delay = None ->
  (n < fuel)%nat ->
  exists t,
    runWithRetries fuel command retries delay printEnv logger w
    = (Raise (TypeError "float argument required, not str"), w1, t)
    /\ launches t = repeat (tokens command) n
    /\ sleeps t = repeat delay n.
Proof.
  intros Hrun Hn Hdelay Hfuel.
  exists (failed_attempts command delay printEnv logger n 0).
  split; [|split].
  - now apply runWithRetries_exhausted.
  - apply launches_failed_attempts.
  - apply sleeps_failed_attempts.
Qed.

End RetryMore.

(** ** The further properties at concrete runs *)

(** [executeCommand] on a program that does not exist, with a logger. *)
Lemma executeCommand_missing_program :
  executeCommand (H := scripted example_environ) (CmdList ["lss"; "-la"])
    None false (Some "deploy")
    [LaunchFailed (OSError "[Errno 2] No such file or directory")]
  = (Raise (OSError "[Errno 2] No such file or directory"), [],
     [EvDebug "deploy" (VList ["lss"; "-la"]) [];
      EvSpawn true ["lss"; "-la"] example_environ]).
Proof.
  apply (executeCommand_launch_error_unlogged (H := scripted example_environ)
           None false (Some "deploy") (CmdList ["lss"; "-la"])
           (OSError "[Errno 2] No such file or directory")
           [LaunchFailed (OSError "[Errno 2] No such file or directory")] []);
    reflexivity.
Defined.

(** [runWithOutput] interrupted from the keyboard, with a logger. *)
Lemma runWithOutput_interrupted :
  runWithOutput (H := scripted example_environ) (CmdStr "make test")
    None false (Some "deploy") [LaunchFailed KeyboardInterrupt]
  = (Raise KeyboardInterrupt, [],
     [EvDebug "deploy" (VStr "make test") [];
      EvSpawn false ["make"; "test"] example_environ]).
Proof.
  apply (runWithOutput_non_Exception_unlogged (H := scripted example_environ)
           None false (Some "deploy") (CmdStr "make test") KeyboardInterrupt
           [LaunchFailed KeyboardInterrupt] []);
    reflexivity.
Defined.

(** A child that writes a blank and a line feed only. *)
Lemma executeCommand_blank_output :
  fst (fst (executeCommand (H := scripted example_environ) (CmdStr "true")
              None false None [Exited 0 (" " ++ LF)]))
  = Ok "".
Proof.
  apply (executeCommand_blank_output_is_empty (H := scripted example_environ)
           None false None (CmdStr "true") (" " ++ LF)
           [Exited 0 (" " ++ LF)] []);
    reflexivity.
Defined.

(** A command of two blanks. *)
Lemma blank_command_at_two_blanks :
  launches (snd (executeCommand (H := scripted example_environ) (CmdStr "  ")
                   None false None [])) = [[""]]
  /\ launches (snd (runWithOutput (H := scripted example_environ) (CmdStr "  ")
                      None false None [])) = [[""]].
Proof.
  apply (blank_command_launches_empty_token (H := scripted example_environ)
           None false None "  " []).
  reflexivity.
Defined.

(** [ls -la] as a string and as two tokens. *)
Lemma joined_tokens_at_ls :
  tokens (CmdStr (PyStr.join " " ["ls"; "-la"])) = ["ls"; "-la"]
  /\ executeCommand (H := scripted example_environ)
       (CmdStr (PyStr.join " " ["ls"; "-la"])) None true None [Exited 2 ""]
     = executeCommand (H := scripted example_environ)
         (CmdList ["ls"; "-la"]) None true None [Exited 2 ""]
  /\ runWithOutput (H := scripted example_environ)
       (CmdStr (PyStr.join " " ["ls"; "-la"])) None true None [Exited 2 ""]
     = runWithOutput (H := scripted example_environ)
         (CmdList ["ls"; "-la"]) None true None [Exited 2 ""].
Proof.
  apply (joined_plain_tokens_run_alike (H := scripted example_environ)
           None true ["ls"; "-la"] [Exited 2 ""]);
    [discriminate | reflexivity].
Defined.

(** One failure, then a success, three retries allowed. *)
Lemma launches_bounded_at_make_test :
  exists k : nat,
    (k <= Z.to_nat 3)%nat
    /\ spawns (snd (runWithRetries (H := scripted example_environ) 4
                      (CmdStr "make test") 3 0 true (Some "deploy")
                      [Exited 2 ""; Exited 0 ""]))
       = repeat (false, ["make"; "test"], example_environ) k.
Proof.
  apply (runWithRetries_launches_bounded (H := scripted example_environ)
           (CmdStr "make test") 3 0 true (Some "deploy") 4
           [Exited 2 ""; Exited 0 ""]).
  simpl. lia.
Defined.

Lemma sleeps_constant_at_make_test :
  exists j : nat,
    (j <= List.length
            (spawns (snd (runWithRetries (H := scripted example_environ) 4
                            (CmdStr "make test") 3 5 true (Some "deploy")
                            [Exited 2 ""; Exited 2 ""; Exited 0 ""]))))%nat
    /\ sleeps (snd (runWithRetries (H := scripted example_environ) 4
                      (CmdStr "make test") 3 5 true (Some "deploy")
                      [Exited 2 ""; Exited 2 ""; Exited 0 ""]))
       = repeat 5 j.
Proof.
  apply (runWithRetries_sleeps_constant (H := scripted example_environ)
           (CmdStr "make test") 3 5 true (Some "deploy") 4
           [Exited 2 ""; Exited 2 ""; Exited 0 ""]).
  simpl. lia.
Defined.

Lemma returns_after_launch_at_make_test :
  0 < 3
  /\ (exists t0,
        [EvSpawn false ["make"; "test"] example_environ; EvSleep 5;
         EvSpawn false ["make"; "test"] example_environ]
        = (t0 ++ [EvSpawn false ["make"; "test"] example_environ])%list)
  /\ List.length
       (launches [EvSpawn false ["make"; "test"] example_environ; EvSleep 5;
                  EvSpawn false ["make"; "test"] example_environ])
     = S (List.length
            (sleeps [EvSpawn false ["make"; "test"] example_environ;
                     EvSleep 5;
                     EvSpawn false ["make"; "test"] example_environ])).
Proof.
  apply (runWithRetries_returns_after_launch (H := scripted example_environ)
           (CmdStr "make test") 3 5 false None 4
           [Exited 2 ""; Exited 0 ""] []);
    [simpl; lia | reflexivity].
Defined.

Lemma prints_env_each_attempt_at_make_test :
  printed_envs (snd (runWithRetries (H := scripted example_environ) 4
                       (CmdStr "make test") 3 0 true None
                       [Exited 2 ""; Exited 0 ""]))
  = repeat example_environ
      (List.length
         (spawns (snd (runWithRetries (H := scripted example_environ) 4
                         (CmdStr "make test") 3 0 true None
                         [Exited 2 ""; Exited 0 ""])))).
Proof.
  apply (runWithRetries_prints_env_each_attempt
           (H := scripted example_environ)
           (CmdStr "make test") 3 0 true None 4 [Exited 2 ""; Exited 0 ""]).
  simpl. lia.
Defined.

(** The launcher itself raising a [CommandFailedError]: it is retried. *)
Lemma never_CommandFailedError_at_launcher_error :
  fst (fst (runWithRetries (H := scripted example_environ) 3
              (CmdStr "false") 2 0 false None
              [LaunchFailed (CommandFailedError "x"); Exited 1 ""]))
  <> Raise (CommandFailedError "x").
Proof.
  apply (runWithRetries_never_CommandFailedError
           (H := scripted example_environ)
           (CmdStr "false") 2 0 false None 3
           [LaunchFailed (CommandFailedError "x"); Exited 1 ""] "x").
  simpl. lia.
Defined.

Lemma silent_without_logger_at_false :
  log_events (snd (runWithRetries (H := scripted example_environ) 3
                     (CmdStr "false") 2 0 true None
                     [Exited 1 ""; LaunchFailed (OSError "x")]))
  = [].
Proof.
  apply (runWithRetries_silent_without_logger (H := scripted example_environ)
           (CmdStr "false") 2 0 true 3
           [Exited 1 ""; LaunchFailed (OSError "x")]).
  simpl. lia.
Defined.

Lemma notices_count_attempts_at_false :
  notice_numbers (snd (runWithRetries (H := scripted example_environ) 4
                         (CmdStr "false") 3 1 false (Some "deploy")
                         [Exited 1 ""; Exited 1 ""; Exited 1 ""]))
  = map Z.of_nat
      (seq 1 (List.length
                (sleeps (snd (runWithRetries (H := scripted example_environ) 4
                                (CmdStr "false") 3 1 false (Some "deploy")
                                [Exited 1 ""; Exited 1 ""; Exited 1 ""]))))).
Proof.
  apply (runWithRetries_notices_count_attempts (H := scripted example_environ)
           (CmdStr "false") 3 1 false "deploy" 4
           [Exited 1 ""; Exited 1 ""; Exited 1 ""]);
    [simpl; lia | reflexivity].
Defined.

(** One retry allowed, one failure. *)
Lemma sleeps_after_single_failure :
  exists t,
    runWithRetries (H := scripted example_environ) 2 (CmdStr "false") 1 0
      false None [Exited 1 ""]
    = (Raise (TypeError "float argument required, not str"), [], t)
    /\ launches t = repeat ["false"] 1
    /\ sleeps t = repeat 0 1.
Proof.
  apply (runWithRetries_sleeps_after_every_failure
           (H := scripted example_environ)
           (CmdStr "false") 1 0 false None 1 2 [Exited 1 ""] []);
    [script_fails | reflexivity | reflexivity | lia].
Defined.
